(** * Telford community board: token lifecycle, credential hooks and
      authorization middleware

    A shallow embedding of [server/config/jwt.js], [server/middleware/auth.js],
    the rate-limit middleware, the [User] model hooks and the parts of the
    authentication controller that verify tokens, followed by the properties
    stated about them.

    Conventions.
    - JavaScript values that reach the code are modelled by [jsval];
      [process.env] is a finite map from names to strings.
    - An exception is a value of [error]; a function that can throw returns
      a [result], and [try { .. } catch] is a [match] on it.
    - [Date.now()] is an explicit argument in milliseconds.
    - The third-party libraries ([jsonwebtoken], [bcryptjs],
      [express-rate-limit]) are modelled by their documented behaviour, each
      in a module or section of its own. *)

From Stdlib Require Import ZArith String Ascii List Bool Lia.
From stdpp Require Import gmap strings pretty.

Local Open Scope Z_scope.

(** ** JavaScript values and exceptions *)

(** The values the modelled code handles: [undefined], strings, and objects
    or functions (only ever reached through [Object.prototype], and only
    their truthiness matters). *)
Inductive jsval : Type :=
  | undefined
  | Str (s : string)
  | Obj (name : string).

#[global] Instance jsval_eq_dec : EqDecision jsval.
Proof. solve_decision. Defined.

(** JavaScript truthiness: the empty string and [undefined] are falsy. *)
Definition truthy (v : jsval) : bool :=
  match v with
  | undefined => false
  | Str s => negb (String.eqb s "")
  | Obj _ => true
  end.

(** [a || b] *)
Definition js_or (a b : jsval) : jsval := if truthy a then a else b.

(** Thrown values, by the [name] the catch blocks dispatch on. *)
Inductive error : Type :=
  | Error (message : string)
  | JsonWebTokenError (message : string)
  | TokenExpiredError
  | TypeError (message : string)
  | SequelizeValidationError (message : string).

Definition error_name (e : error) : string :=
  match e with
  | Error _ => "Error"
  | JsonWebTokenError _ => "JsonWebTokenError"
  | TokenExpiredError => "TokenExpiredError"
  | TypeError _ => "TypeError"
  | SequelizeValidationError _ => "SequelizeValidationError"
  end.

Inductive result (A : Type) : Type :=
  | Ok (a : A)
  | Throw (e : error).
Arguments Ok {A} a.
Arguments Throw {A} e.

Definition bind {A B : Type} (r : result A) (k : A -> result B) : result B :=
  match r with
  | Ok a => k a
  | Throw e => Throw e
  end.

Notation "'let*' x ':=' r 'in' k" := (bind r (fun x => k))
  (at level 10, x name, r at level 100, k at level 200).

(** The own enumerable part of an object literal is a finite map; a property
    read that misses it continues along the prototype chain, which for an
    object literal is [Object.prototype]. *)
Definition Object_prototype : list string :=
  [ "constructor"; "__defineGetter__"; "__defineSetter__"; "hasOwnProperty";
    "__lookupGetter__"; "__lookupSetter__"; "isPrototypeOf";
    "propertyIsEnumerable"; "toString"; "valueOf"; "__proto__";
    "toLocaleString" ].

(** [obj[key]] for an object literal [obj]. *)
Definition get_property (obj : gmap string jsval) (key : string) : jsval :=
  match obj !! key with
  | Some v => v
  | None => if bool_decide (key ∈ Object_prototype) then Obj key else undefined
  end.

(** A string-valued property that may be absent. *)
Definition of_option (o : option string) : jsval :=
  match o with
  | Some s => Str s
  | None => undefined
  end.

(** [process.env.NAME] *)
Definition getenv (env : gmap string string) (name : string) : jsval :=
  of_option (env !! name).

(** ** Token claims *)

(** The payload of a token, with the properties the code writes or reads;
    a property that is absent reads as [None]. *)
Record claims : Type := mkClaims {
  userId : option Z;
  email : option string;
  role : option string;
  tokenType : option string;
  iat : option Z;
  exp : option Z
}.

#[global] Instance claims_eq_dec : EqDecision claims.
Proof. solve_decision. Defined.

Definition claims_to_tuple (c : claims) :=
  (userId c, email c, role c, tokenType c, iat c, exp c).

Definition claims_of_tuple
    (t : option Z * option string * option string * option string
         * option Z * option Z) : claims :=
  let '(u, e, r, t, i, x) := t in mkClaims u e r t i x.

#[global] Instance claims_countable : Countable claims.
Proof.
  apply (inj_countable' claims_to_tuple claims_of_tuple).
  intros []; reflexivity.
Defined.

(** The subject claims of a payload. *)
Definition subject (c : claims) : option Z * option string * option string :=
  (userId c, email c, role c).

(** ** The [jsonwebtoken] library

    An idealised model of HS256 tokens: the wire form of a token is the
    bit string that encodes its payload together with the key it was signed
    with, so a signature verifies under a secret exactly when the token was
    signed with that secret.  (HMAC does not tell apart two secrets that
    give the same key, such as a secret longer than the block and its
    digest; nothing below is concluded from two secrets being different
    strings.)  [sign], [verify] and [decode] follow the library's order of
    checks. *)
Module jwt.

Fixpoint bits_of_pos (p : positive) : string :=
  match p with
  | xH => ""
  | xO q => String "0" (bits_of_pos q)
  | xI q => String "1" (bits_of_pos q)
  end.

Fixpoint pos_of_bits (s : string) : option positive :=
  match s with
  | EmptyString => Some xH
  | String c r =>
      if Ascii.eqb c "0" then xO <$> pos_of_bits r
      else if Ascii.eqb c "1" then xI <$> pos_of_bits r
      else None
  end.

(** The first segment of every HS256 token:
    base64url of [{"alg":"HS256","typ":"JWT"}]. *)
Definition header : string := "eyJhbGciOiJIUzI1NiIsInR5cCI6IkpXVCJ9".

(** [strip pre s] is what follows [pre] in [s], if [s] starts with it. *)
Fixpoint strip (pre s : string) : option string :=
  match pre, s with
  | EmptyString, _ => Some s
  | String a pre', String b s' =>
      if Ascii.eqb a b then strip pre' s' else None
  | String _ _, EmptyString => None
  end.

(** Wire form of a payload signed with [key]. *)
Definition render (payload : claims) (key : string) : string :=
  header +:+ "." +:+ bits_of_pos (encode (payload, key)).

(** Structural parse of a wire string: payload and signing key. *)
Definition parse (token : string) : option (claims * string) :=
  body ← strip (header +:+ ".") token;
  p ← pos_of_bits body;
  decode p.

(** The [ms] time spans the configuration uses, in seconds. *)
Definition timespan (span : string) : option Z :=
  if String.eqb span "15m" then Some 900
  else if String.eqb span "7d" then Some 604800
  else if String.eqb span "1h" then Some 3600
  else None.

(** [jwt.sign(payload, secretOrPrivateKey, { expiresIn })] at clock
    [now] (milliseconds).  The checks come in the library's order: the
    key, an [exp] already in the payload, the [expiresIn] option; then
    [iat] and [exp] are written.  (Messages are given without their inner
    quotation marks.) *)
Definition sign (payload : claims) (secretOrPrivateKey expiresIn : jsval)
    (now : Z) : result string :=
  if negb (truthy secretOrPrivateKey) then
    Throw (Error "secretOrPrivateKey must have a value")
  else
    match secretOrPrivateKey with
    | Str key =>
        match exp payload with
        | Some _ =>
            Throw (Error "Bad options.expiresIn option the payload already has an exp property.")
        | None =>
            match expiresIn with
            | Str span =>
                match timespan span with
                | Some seconds =>
                    let timestamp :=
                      match iat payload with
                      | Some t => if Z.eqb t 0 then now / 1000 else t
                      | None => now / 1000
                      end in
                    Ok (render
                          {| userId := userId payload;
                             email := email payload;
                             role := role payload;
                             tokenType := tokenType payload;
                             iat := Some timestamp;
                             exp := Some (timestamp + seconds) |}
                          key)
                | None =>
                    Throw (Error "expiresIn should be a number of seconds or string representing a timespan")
                end
            | _ =>
                Throw (Error "expiresIn should be a number of seconds or string representing a timespan")
            end
        end
    | _ => Throw (Error "secretOrPrivateKey is not valid key material")
    end.

(** [jwt.verify(token, secretOrPublicKey)] at clock [now]
    (milliseconds): structure, then signature, then expiry. *)
Definition verify (token : string) (secretOrPublicKey : jsval) (now : Z)
    : result claims :=
  if String.eqb token "" then Throw (JsonWebTokenError "jwt must be provided")
  else
    match parse token with
    | None => Throw (JsonWebTokenError "jwt malformed")
    | Some (payload, key) =>
        match secretOrPublicKey with
        | Str secret =>
            if negb (truthy secretOrPublicKey) then
              Throw (JsonWebTokenError "secret or public key must be provided")
            else if negb (String.eqb key secret) then
              Throw (JsonWebTokenError "invalid signature")
            else
              match exp payload with
              | Some e =>
                  if Z.leb e (now / 1000) then Throw TokenExpiredError
                  else Ok payload
              | None => Ok payload
              end
        | undefined =>
            Throw (JsonWebTokenError "secret or public key must be provided")
        | Obj _ =>
            Throw (JsonWebTokenError "secretOrPublicKey is not valid key material")
        end
    end.

(** [jwt.decode(token)]: the payload without any verification, or
    [null]. *)
Definition decode (token : string) : option claims :=
  fst <$> parse token.

End jwt.

(** ** [server/config/jwt.js] *)

Module JWT_CONFIG.
Definition ACCESS_TOKEN_EXPIRY : string := "15m".
Definition REFRESH_TOKEN_EXPIRY : string := "7d".
Definition RESET_TOKEN_EXPIRY : string := "1h".
Module TOKEN_TYPES.
Definition ACCESS : string := "access".
Definition REFRESH : string := "refresh".
Definition RESET : string := "reset".
End TOKEN_TYPES.
End JWT_CONFIG.
Import JWT_CONFIG.

(** The error [getSecretByType] throws. *)
Definition ConfigurationError (type : string) : error :=
  Error ("JWT secret not configured for token type: " +:+ type).

Definition getSecretByType (env : gmap string string) (type : string)
    : result jsval :=
  let secrets : gmap string jsval :=
    <[TOKEN_TYPES.RESET :=
        js_or (getenv env "JWT_RESET_SECRET") (getenv env "JWT_SECRET")]>
    (<[TOKEN_TYPES.REFRESH :=
        js_or (getenv env "JWT_REFRESH_SECRET") (getenv env "JWT_SECRET")]>
    (<[TOKEN_TYPES.ACCESS :=
        js_or (getenv env "JWT_ACCESS_SECRET") (getenv env "JWT_SECRET")]>
     ∅)) in
  let secret := get_property secrets type in
  if negb (truthy secret) then Throw (ConfigurationError type)
  else Ok secret.

Definition getExpiryByType (type : string) : jsval :=
  let expiries : gmap string jsval :=
    <[TOKEN_TYPES.RESET := Str RESET_TOKEN_EXPIRY]>
    (<[TOKEN_TYPES.REFRESH := Str REFRESH_TOKEN_EXPIRY]>
    (<[TOKEN_TYPES.ACCESS := Str ACCESS_TOKEN_EXPIRY]> ∅)) in
  js_or (get_property expiries type) (Str ACCESS_TOKEN_EXPIRY).

(** [generateToken(payload, type)] with [Date.now() = now]. *)
Definition generateToken (env : gmap string string) (now : Z)
    (payload : claims) (type : string) : result string :=
  let* secret := getSecretByType env type in
  let expiresIn := getExpiryByType type in
  let tokenPayload :=
    {| userId := userId payload;
       email := email payload;
       role := role payload;
       tokenType := Some type;
       iat := Some (now / 1000);
       exp := exp payload |} in
  jwt.sign tokenPayload secret expiresIn now.

(** [verifyToken(token, type)] with [Date.now() = now]. *)
Definition verifyToken (env : gmap string string) (now : Z)
    (token : string) (type : string) : result claims :=
  let* secret := getSecretByType env type in
  jwt.verify token secret now.

Definition decodeToken (token : string) : option claims :=
  jwt.decode token.

(** The [User] model instance (attributes of [sequelize.define('User', ..)];
    [lastLogin], which no function below reads, is left out).  The password
    is absent from an instance loaded with the default scope. *)
Module User.
Record t : Type := mk {
  id : Z;
  username : string;
  email : string;
  password : option string;
  displayName : option string;
  role : string;
  isActive : bool;
  emailVerified : bool
}.
End User.

Record AuthTokens : Type := {
  accessToken : string;
  refreshToken : string;
  accessTokenExpiry : string;
  refreshTokenExpiry : string
}.

(** [generateAuthTokens(user)]; [now_access] and [now_refresh] are the
    clock readings of the two [generateToken] calls. *)
Definition generateAuthTokens (env : gmap string string)
    (now_access now_refresh : Z) (user : User.t) : result AuthTokens :=
  let payload :=
    {| userId := Some (User.id user);
       email := Some (User.email user);
       role := Some (User.role user);
       tokenType := None; iat := None; exp := None |} in
  let* accessToken :=
    generateToken env now_access payload TOKEN_TYPES.ACCESS in
  let* refreshToken :=
    generateToken env now_refresh payload TOKEN_TYPES.REFRESH in
  Ok {| accessToken := accessToken;
        refreshToken := refreshToken;
        accessTokenExpiry := ACCESS_TOKEN_EXPIRY;
        refreshTokenExpiry := REFRESH_TOKEN_EXPIRY |}.

Definition generateResetToken (env : gmap string string) (now : Z)
    (email : string) : result string :=
  generateToken env now
    {| userId := None; email := Some email; role := None;
       tokenType := None; iat := None; exp := None |}
    TOKEN_TYPES.RESET.

(** ** Requests, responses and middleware outcomes *)

(** [req.user], as [authenticate] and [optionalAuth] build it from the
    decoded payload. *)
Module Identity.
Record t : Type := mk {
  id : option Z;
  email : option string;
  role : option string
}.
End Identity.

(** The parts of an Express request the middleware reads or writes. *)
Record request : Type := mkRequest {
  authorization : option string;       (* req.headers.authorization *)
  body_refreshToken : option string;   (* req.body.refreshToken *)
  path : string;                       (* req.path *)
  ip : string;                         (* req.ip *)
  user : option Identity.t;            (* req.user *)
  refreshTokenData : option claims     (* req.refreshTokenData *)
}.

(** [res.status(..).json({ success: false, message, code, .. })]. *)
Record response : Type := mkResponse {
  status : Z;
  success : bool;
  message : string;
  code : option string;
  requiredRoles : option (list string);
  userRole : option string
}.

(** [res.status(status).json({ success: false, message, code })] *)
Definition reject (status : Z) (message code : string) : response :=
  {| status := status; success := false; message := message;
     code := Some code; requiredRoles := None; userRole := None |}.

(** A middleware either answers the request or calls [next()] with the
    request as it has left it. *)
Inductive outcome : Type :=
  | Respond (res : response)
  | Next (req : request).

Definition set_user (req : request) (u : Identity.t) : request :=
  {| authorization := authorization req;
     body_refreshToken := body_refreshToken req;
     path := path req; ip := ip req;
     user := Some u;
     refreshTokenData := refreshTokenData req |}.

Definition set_refreshTokenData (req : request) (c : claims) : request :=
  {| authorization := authorization req;
     body_refreshToken := body_refreshToken req;
     path := path req; ip := ip req;
     user := user req;
     refreshTokenData := Some c |}.

(** [s.split(sep)] for a one-character separator. *)
Fixpoint split (sep : ascii) (s : string) : list string :=
  match s with
  | EmptyString => [EmptyString]
  | String c rest =>
      if Ascii.eqb c sep then EmptyString :: split sep rest
      else
        match split sep rest with
        | first :: others => String c first :: others
        | [] => [String c EmptyString]
        end
  end.

(** [authHeader && authHeader.startsWith('Bearer ')]; an absent header
    and the empty string are both falsy. *)
Definition has_bearer (authHeader : option string) : bool :=
  truthy (of_option authHeader)
  && String.prefix "Bearer " (default EmptyString authHeader).

(** [authHeader.split(' ')[1]] *)
Definition bearer_token (h : string) : string :=
  nth 1 (split " " h) EmptyString.

(** ** [server/middleware/auth.js] *)

Definition identity_of (decoded : claims) : Identity.t :=
  {| Identity.id := userId decoded;
     Identity.email := email decoded;
     Identity.role := role decoded |}.

Definition authenticate (env : gmap string string) (now : Z) (req : request)
    : outcome :=
  let attempt : result outcome :=
    let authHeader := authorization req in
    if negb (has_bearer authHeader) then
      Ok (Respond (reject 401 "Access denied. No token provided." "NO_TOKEN"))
    else
      let token := bearer_token (default EmptyString authHeader) in
      let* decoded := verifyToken env now token TOKEN_TYPES.ACCESS in
      if negb (bool_decide (tokenType decoded = Some TOKEN_TYPES.ACCESS))
      then Ok (Respond (reject 401 "Invalid token type." "INVALID_TOKEN_TYPE"))
      else Ok (Next (set_user req (identity_of decoded))) in
  match attempt with
  | Ok o => o
  | Throw error =>
      let statusCode := 401 in
      if String.eqb (error_name error) "TokenExpiredError" then
        Respond (reject statusCode
                   "Token has expired. Please refresh your token."
                   "TOKEN_EXPIRED")
      else if String.eqb (error_name error) "JsonWebTokenError" then
        Respond (reject statusCode "Invalid token." "MALFORMED_TOKEN")
      else
        Respond (reject statusCode "Invalid or expired token." "INVALID_TOKEN")
  end.

(** [authorize(...allowedRoles)] *)
Definition authorize (allowedRoles : list string) (req : request) : outcome :=
  match user req with
  | None =>
      Respond (reject 401 "User not authenticated." "NOT_AUTHENTICATED")
  | Some u =>
      if negb (bool_decide (Identity.role u ∈ (Some <$> allowedRoles))) then
        Respond
          {| status := 403;
             success := false;
             message := "You do not have permission to perform this action.";
             code := Some "INSUFFICIENT_PERMISSIONS";
             requiredRoles := Some allowedRoles;
             userRole := Identity.role u |}
      else Next req
  end.

Definition optionalAuth (env : gmap string string) (now : Z) (req : request)
    : outcome :=
  let attempt : result request :=
    let authHeader := authorization req in
    if has_bearer authHeader then
      let token := bearer_token (default EmptyString authHeader) in
      let* decoded := verifyToken env now token TOKEN_TYPES.ACCESS in
      if bool_decide (tokenType decoded = Some TOKEN_TYPES.ACCESS)
      then Ok (set_user req (identity_of decoded))
      else Ok req
    else Ok req in
  match attempt with
  | Ok req' => Next req'
  | Throw _ => Next req
  end.

Definition verifyRefreshToken (env : gmap string string) (now : Z)
    (req : request) : outcome :=
  let attempt : result outcome :=
    let refreshToken := body_refreshToken req in
    if negb (truthy (of_option refreshToken)) then
      Ok (Respond (reject 400 "Refresh token is required." "NO_REFRESH_TOKEN"))
    else
      let* decoded :=
        verifyToken env now (default EmptyString refreshToken)
          TOKEN_TYPES.REFRESH in
      if negb (bool_decide (tokenType decoded = Some TOKEN_TYPES.REFRESH))
      then Ok (Respond (reject 401 "Invalid refresh token type."
                          "INVALID_REFRESH_TOKEN"))
      else Ok (Next (set_refreshTokenData req decoded)) in
  match attempt with
  | Ok o => o
  | Throw error =>
      if String.eqb (error_name error) "TokenExpiredError" then
        Respond (reject 401 "Refresh token has expired. Please log in again."
                   "REFRESH_TOKEN_EXPIRED")
      else
        Respond (reject 401 "Invalid refresh token." "INVALID_REFRESH_TOKEN")
  end.

(** ** The [express-rate-limit] library

    A fixed-window counter per key, as the library's memory store keeps it:
    a request is answered with status 429 and the configured message once
    its key has more than [max] hits in the current window. *)
Module rateLimit.

(** The options object handed to [rateLimit(..)]; [keyGenerator] and [skip]
    may be left out. *)
Record Options : Type := mkOptions {
  windowMs : Z;
  max : Z;
  message : string * string;     (* message.message, message.code *)
  skipSuccessfulRequests : bool;
  keyGenerator : option (request -> string);
  skip : option (request -> bool)
}.

(** The library's defaults: the key is the caller's address and nothing is
    skipped. *)
Definition key_of (o : Options) (req : request) : string :=
  match keyGenerator o with
  | Some f => f req
  | None => ip req
  end.

Definition skipped (o : Options) (req : request) : bool :=
  match skip o with
  | Some f => f req
  | None => false
  end.

(** Hits and reset time per key. *)
Definition increment (o : Options) (now : Z) (key : string)
    (store : gmap string (Z * Z)) : Z * Z :=
  match store !! key with
  | Some (hits, resetTime) =>
      if Z.ltb now resetTime then (hits + 1, resetTime)
      else (1, now + windowMs o)
  | None => (1, now + windowMs o)
  end.

(** The middleware [rateLimit(options)] on one request at time [now]. *)
Definition handle (o : Options) (now : Z) (store : gmap string (Z * Z))
    (req : request) : outcome * gmap string (Z * Z) :=
  if skipped o req then (Next req, store)
  else
    let key := key_of o req in
    let '(totalHits, resetTime) := increment o now key store in
    let store' := <[key := (totalHits, resetTime)]> store in
    if Z.ltb (max o) totalHits then
      (Respond (reject 429 (fst (message o)) (snd (message o))), store')
    else (Next req, store').

(** When the response has been sent: a successful one is not counted if
    [skipSuccessfulRequests] is set. *)
Definition finish (o : Options) (store : gmap string (Z * Z))
    (req : request) (statusCode : Z) : gmap string (Z * Z) :=
  if skipSuccessfulRequests o && Z.ltb statusCode 400 then
    match store !! key_of o req with
    | Some (hits, resetTime) =>
        <[key_of o req := (Z.max 0 (hits - 1), resetTime)]> store
    | None => store
    end
  else store.

(** A run of requests through a limiter that counts every request (one
    without [skipSuccessfulRequests]): the outcomes, oldest first. *)
Fixpoint run (o : Options) (store : gmap string (Z * Z))
    (reqs : list (Z * request)) : list outcome :=
  match reqs with
  | [] => []
  | (now, req) :: rest =>
      let '(out, store') := handle o now store req in
      out :: run o store' rest
  end.

End rateLimit.

(** ** The rate-limiting middleware module *)

Module RATE_LIMIT_CONFIG.

Definition general : rateLimit.Options :=
  {| rateLimit.windowMs := 15 * 60 * 1000;
     rateLimit.max := 100;
     rateLimit.message :=
       ("Too many requests from this IP, please try again later.",
        "RATE_LIMIT_EXCEEDED");
     rateLimit.skipSuccessfulRequests := false;
     rateLimit.keyGenerator := None;
     rateLimit.skip := None |}.

Definition auth : rateLimit.Options :=
  {| rateLimit.windowMs := 15 * 60 * 1000;
     rateLimit.max := 5;
     rateLimit.message :=
       ("Too many login attempts, please try again later.",
        "LOGIN_RATE_LIMIT_EXCEEDED");
     rateLimit.skipSuccessfulRequests := true;
     rateLimit.keyGenerator := None;
     rateLimit.skip := None |}.

Definition passwordReset : rateLimit.Options :=
  {| rateLimit.windowMs := 60 * 60 * 1000;
     rateLimit.max := 3;
     rateLimit.message :=
       ("Too many password reset attempts, please try again later.",
        "PASSWORD_RESET_LIMIT_EXCEEDED");
     rateLimit.skipSuccessfulRequests := false;
     rateLimit.keyGenerator := None;
     rateLimit.skip := None |}.

End RATE_LIMIT_CONFIG.

Definition generalLimiter : rateLimit.Options := RATE_LIMIT_CONFIG.general.
Definition authLimiter : rateLimit.Options := RATE_LIMIT_CONFIG.auth.
Definition passwordResetLimiter : rateLimit.Options :=
  RATE_LIMIT_CONFIG.passwordReset.

(** [`user:${req.user.id}`] *)
Definition user_key (u : Identity.t) : string :=
  "user:" +:+
  match Identity.id u with
  | Some n => pretty n
  | None => "undefined"
  end.

Definition userRateLimiter (maxRequests windowMs : Z) : rateLimit.Options :=
  {| rateLimit.windowMs := windowMs;
     rateLimit.max := maxRequests;
     rateLimit.message :=
       ("You have made too many requests. Please try again later.",
        "USER_RATE_LIMIT_EXCEEDED");
     rateLimit.skipSuccessfulRequests := false;
     rateLimit.keyGenerator :=
       Some (fun req =>
               match user req with
               | Some u => user_key u
               | None => ip req
               end);
     rateLimit.skip := None |}.

Definition skipRateLimit (req : request) : bool :=
  if match user req with
     | Some u => bool_decide (Identity.role u = Some "admin")
     | None => false
     end
  then true
  else
    let skipPaths := ["/api/health"; "/api/docs"] in
    if bool_decide (path req ∈ skipPaths) then true
    else false.

(** ** The [bcryptjs] library

    An idealised model: the hash is the salt followed by a digest that is an
    injective function of the password (its binary expansion), so two
    passwords never share a digest.  [genSalt] takes the characters drawn
    from the random source as an argument. *)
Module bcrypt.

Definition bit (b : bool) : ascii := if b then "1"%char else "0"%char.

Definition ascii_bits (c : ascii) : string :=
  let '(Ascii b0 b1 b2 b3 b4 b5 b6 b7) := c in
  String (bit b7) (String (bit b6) (String (bit b5) (String (bit b4)
  (String (bit b3) (String (bit b2) (String (bit b1) (String (bit b0)
  EmptyString))))))).

Fixpoint digest (s : string) : string :=
  match s with
  | EmptyString => EmptyString
  | String c rest => ascii_bits c +:+ digest rest
  end.

(** [bcrypt.genSalt(rounds)] *)
Definition genSalt (rounds : Z) (random : string) : string :=
  "$2a$" +:+ (if Z.ltb rounds 10 then "0" else "") +:+ pretty rounds
  +:+ "$" +:+ random.

(** [bcrypt.hash(s, salt)] *)
Definition hash (s salt : string) : result string :=
  if negb (String.prefix "$2" salt) then
    Throw (Error "Invalid salt version")
  else Ok (salt +:+ digest s).

End bcrypt.

(** ** JavaScript strings

    A string is held as the bytes of its UTF-8 encoding.  [toLowerCase] and
    [trim] are given for ASCII text, where they change the letters [A-Z]
    and remove the characters 9 to 13 and 32; on other text the JavaScript
    functions also change non-ASCII letters and remove the Unicode spaces.
    The statements about creation, login and password-reset requests that
    turn on the outcome of these functions are made for emails that are
    [ascii_only]. *)

(** Every byte is below 128. *)
Fixpoint ascii_only (s : string) : bool :=
  match s with
  | EmptyString => true
  | String c rest => Nat.ltb (nat_of_ascii c) 128 && ascii_only rest
  end.

(** [s.toLowerCase()] on ASCII letters. *)
Definition lower (c : ascii) : ascii :=
  let n := nat_of_ascii c in
  if (Nat.leb 65 n && Nat.leb n 90)%nat then ascii_of_nat (n + 32) else c.

Fixpoint toLowerCase (s : string) : string :=
  match s with
  | EmptyString => EmptyString
  | String c rest => String (lower c) (toLowerCase rest)
  end.

(** White space that [String.prototype.trim] removes, for ASCII text. *)
Definition is_whitespace (c : ascii) : bool :=
  let n := nat_of_ascii c in
  (Nat.leb 9 n && Nat.leb n 13)%nat || Nat.eqb n 32.

Fixpoint trimStart (s : string) : string :=
  match s with
  | EmptyString => EmptyString
  | String c rest => if is_whitespace c then trimStart rest else s
  end.

Fixpoint trimEnd (s : string) : string :=
  match s with
  | EmptyString => EmptyString
  | String c rest =>
      let rest' := trimEnd rest in
      if is_whitespace c && String.eqb rest' "" then EmptyString
      else String c rest'
  end.

(** [s.trim()] *)
Definition trim (s : string) : string := trimEnd (trimStart s).

(** A continuation byte [10xxxxxx] of a UTF-8 sequence. *)
Definition is_continuation (c : ascii) : bool :=
  let n := nat_of_ascii c in (Nat.leb 128 n && Nat.ltb n 192)%nat.

(** The text starts with a variation selector, U+FE0E or U+FE0F
    ([EF B8 8E], [EF B8 8F]). *)
Definition is_variation_selector (s : string) : bool :=
  match s with
  | String a (String b (String c _)) =>
      Nat.eqb (nat_of_ascii a) 239 && Nat.eqb (nat_of_ascii b) 184
      && (Nat.eqb (nat_of_ascii c) 142 || Nat.eqb (nat_of_ascii c) 143)
  | _ => false
  end.

(** The length [validator.isLength] compares with its bounds: the UTF-16
    length less the surrogate pairs and the variation selectors, that is
    the number of characters other than variation selectors.  In UTF-8 a
    character starts at every byte that is no continuation byte. *)
Fixpoint isLength_count (s : string) : nat :=
  match s with
  | EmptyString => O
  | String c rest =>
      if is_continuation c || is_variation_selector s
      then isLength_count rest
      else S (isLength_count rest)
  end.

(** ** The [User] model: validators, hooks and the save pipeline *)

(** A model instance: its data values and the keys assigned since it was
    loaded or last saved ([changed()]). *)
Module Model.
Record t : Type := mk {
  dataValues : User.t;
  changed_keys : list string;
  isNewRecord : bool
}.
End Model.

Definition with_password (u : User.t) (p : option string) : User.t :=
  {| User.id := User.id u; User.username := User.username u;
     User.email := User.email u; User.password := p;
     User.displayName := User.displayName u; User.role := User.role u;
     User.isActive := User.isActive u;
     User.emailVerified := User.emailVerified u |}.

Definition with_displayName (u : User.t) (d : option string) : User.t :=
  {| User.id := User.id u; User.username := User.username u;
     User.email := User.email u; User.password := User.password u;
     User.displayName := d; User.role := User.role u;
     User.isActive := User.isActive u;
     User.emailVerified := User.emailVerified u |}.

Definition with_email (u : User.t) (e : string) : User.t :=
  {| User.id := User.id u; User.username := User.username u;
     User.email := e; User.password := User.password u;
     User.displayName := User.displayName u; User.role := User.role u;
     User.isActive := User.isActive u;
     User.emailVerified := User.emailVerified u |}.

(** The value of an attribute, as [!==] compares it. *)
Inductive value : Type :=
  | Num (n : Z)
  | Text (s : string)
  | Flag (b : bool).

#[global] Instance value_eq_dec : EqDecision value.
Proof. solve_decision. Defined.

(** [dataValues[key]]; [None] is [undefined]. *)
Definition get (u : User.t) (key : string) : option value :=
  if String.eqb key "id" then Some (Num (User.id u))
  else if String.eqb key "username" then Some (Text (User.username u))
  else if String.eqb key "email" then Some (Text (User.email u))
  else if String.eqb key "password" then Text <$> User.password u
  else if String.eqb key "displayName" then Text <$> User.displayName u
  else if String.eqb key "role" then Some (Text (User.role u))
  else if String.eqb key "isActive" then Some (Flag (User.isActive u))
  else if String.eqb key "emailVerified" then
    Some (Flag (User.emailVerified u))
  else None.

(** [_.pick(dataValues, fields)[key]] *)
Definition pick (u : User.t) (fields : list string) (key : string)
    : option value :=
  if bool_decide (key ∈ fields) then get u key else None.

(** [user.changed(key)] *)
Definition changed (user : Model.t) (key : string) : bool :=
  bool_decide (key ∈ Model.changed_keys user).

(** [user.password = value]: the key is marked changed when the value
    differs from the current one. *)
Definition set_password (user : Model.t) (value : string) : Model.t :=
  {| Model.dataValues := with_password (Model.dataValues user) (Some value);
     Model.changed_keys :=
       if bool_decide (User.password (Model.dataValues user) = Some value)
       then Model.changed_keys user
       else "password" :: Model.changed_keys user;
     Model.isNewRecord := Model.isNewRecord user |}.

(** [user.displayName = value] *)
Definition set_displayName (user : Model.t) (value : string) : Model.t :=
  {| Model.dataValues :=
       with_displayName (Model.dataValues user) (Some value);
     Model.changed_keys :=
       if bool_decide (User.displayName (Model.dataValues user) = Some value)
       then Model.changed_keys user
       else "displayName" :: Model.changed_keys user;
     Model.isNewRecord := Model.isNewRecord user |}.

Definition hashPassword (user : Model.t) (random : string)
    : result Model.t :=
  let password := User.password (Model.dataValues user) in
  if truthy (of_option password) then
    let salt := bcrypt.genSalt 10 random in
    let* hashed := bcrypt.hash (default EmptyString password) salt in
    Ok (set_password user hashed)
  else Ok user.

Module hooks.

Definition beforeCreate (user : Model.t) (random : string)
    : result Model.t :=
  let* user := hashPassword user random in
  if negb (truthy (of_option (User.displayName (Model.dataValues user))))
  then Ok {| Model.dataValues :=
               with_displayName (Model.dataValues user)
                 (Some (User.username (Model.dataValues user)));
             Model.changed_keys :=
               "displayName" :: Model.changed_keys user;
             Model.isNewRecord := Model.isNewRecord user |}
  else Ok user.

Definition beforeUpdate (user : Model.t) (random : string)
    : result Model.t :=
  if changed user "password" then hashPassword user random
  else Ok user.

End hooks.

Section Sequelize.

(** The [isEmail] validator of the [email] attribute. *)
Variable isEmail : string -> bool.

(** The [len: [lo, hi]] validator: [validator.isLength(s, lo, hi)]. *)
Definition len (lo hi : nat) (s : string) : bool :=
  (Nat.leb lo (isLength_count s) && Nat.leb (isLength_count s) hi)%nat.

(** The validators the model declares for one attribute ([allowNull: false]
    and [validate]). *)
Definition validate_attribute (u : User.t) (key : string) : bool :=
  if String.eqb key "username" then len 3 50 (User.username u)
  else if String.eqb key "email" then isEmail (User.email u)
  else if String.eqb key "password" then
    match User.password u with
    | Some p => len 8 100 p
    | None => false
    end
  else if String.eqb key "role" then
    bool_decide (User.role u ∈ ["user"; "moderator"; "admin"])
  else true.

Definition attributes : list string :=
  ["id"; "username"; "email"; "password"; "displayName"; "role";
   "isActive"; "emailVerified"; "lastLogin"].

Definition validate (u : User.t) (fields : list string) : result unit :=
  if forallb (validate_attribute u) fields then Ok tt
  else Throw (SequelizeValidationError "Validation error").

(** [User.create(values)]: the instance is built, which runs the setter of
    the [email] attribute ([value.toLowerCase().trim()]); then validation,
    then [beforeCreate]; the result is the row handed to the [INSERT].
    (What the database does with it, such as refusing a second row with
    the same username or email, is outside this model.) *)
Definition create (values : User.t) (random : string) : result User.t :=
  let values :=
    with_email values (trim (toLowerCase (User.email values))) in
  let user :=
    {| Model.dataValues := values;
       Model.changed_keys := attributes;
       Model.isNewRecord := true |} in
  let* _ := validate values attributes in
  let* user := hooks.beforeCreate user random in
  Ok (Model.dataValues user).

(** The row after [UPDATE .. SET] of the given fields. *)
Definition write_fields (row : User.t) (values : User.t)
    (fields : list string) : User.t :=
  let pick {A : Type} (key : string) (get : User.t -> A) : A :=
    if bool_decide (key ∈ fields) then get values else get row in
  {| User.id := User.id row;
     User.username := pick "username" User.username;
     User.email := pick "email" User.email;
     User.password := pick "password" User.password;
     User.displayName := pick "displayName" User.displayName;
     User.role := pick "role" User.role;
     User.isActive := pick "isActive" User.isActive;
     User.emailVerified := pick "emailVerified" User.emailVerified |}.

(** [user.save()] for an instance loaded from [row].  The fields to write
    default to the changed attributes; these are validated; [beforeUpdate]
    runs; the attributes that are marked changed afterwards and whose value
    is not the one picked before the hook are added to the fields; the row
    results from writing the fields, and the instance comes back with
    nothing marked changed.

    Sequelize validates the attributes the hook changed once more.  The
    only attribute the hooks of this model change on an update is the
    password, whose new value is then a bcrypt hash: 60 characters, inside
    [len: [8, 100]].  The hash of [bcrypt] below has another length, so
    this second validation is left out rather than run on it. *)
Definition save (row : User.t) (user : Model.t) (random : string)
    : result (Model.t * User.t) :=
  let fields := Model.changed_keys user in
  let* _ := validate (Model.dataValues user) fields in
  let beforeHookValues := pick (Model.dataValues user) fields in
  let* user' := hooks.beforeUpdate user random in
  let afterHookValues :=
    pick (Model.dataValues user') (Model.changed_keys user') in
  let hookChanged :=
    List.filter
      (fun key =>
         negb (bool_decide (afterHookValues key = beforeHookValues key)))
      (Model.changed_keys user') in
  let fields := remove_dups (fields ++ hookChanged) in
  Ok ({| Model.dataValues := Model.dataValues user';
         Model.changed_keys := [];
         Model.isNewRecord := false |},
      write_fields row (Model.dataValues user') fields).

End Sequelize.

(** ** The authentication controller: password reset *)

(** [db.User.findOne({ where: { email } })] over the rows of the table. *)
Definition findOne_by_email (table : list User.t) (email : string)
    : option User.t :=
  find (fun row => String.eqb (User.email row) email) table.

(** The table after the row with [row]'s id has been replaced by [row]. *)
Definition store_row (table : list User.t) (row : User.t) : list User.t :=
  map (fun r => if Z.eqb (User.id r) (User.id row) then row else r) table.

(** An instance loaded with the default scope, which leaves the password
    out. *)
Definition load (row : User.t) : Model.t :=
  {| Model.dataValues := with_password row None;
     Model.changed_keys := [];
     Model.isNewRecord := false |}.

Section Controller.

Variable isEmail : string -> bool.

(** [resetPassword(req, res)] with [req.body = { token, password }]: the
    response and the table afterwards.  The default scope leaves the
    password out of the instance that [findOne] loads. *)
Definition resetPassword (env : gmap string string) (now : Z)
    (table : list User.t) (token password random : string)
    : response * list User.t :=
  let attempt : result (response * list User.t) :=
    let* decoded := verifyToken env now token TOKEN_TYPES.RESET in
    let* email :=
      match email decoded with
      | Some e => Ok (toLowerCase e)
      | None =>
          Throw (TypeError "Cannot read properties of undefined (reading 'toLowerCase')")
      end in
    match findOne_by_email table email with
    | None => Ok (reject 400 "Invalid reset token" "INVALID_RESET_TOKEN", table)
    | Some row =>
        if negb (User.isActive row) then
          Ok (reject 403 "Account is deactivated" "ACCOUNT_DEACTIVATED", table)
        else
          let user := load row in
          let user := set_password user password in
          let* saved := save isEmail row user random in
          Ok ({| status := 200; success := true;
                 message := "Password reset successful. You can now log in with your new password.";
                 code := None; requiredRoles := None; userRole := None |},
              store_row table (snd saved))
    end in
  match attempt with
  | Ok r => r
  | Throw error =>
      let statusCode := 400 in
      if String.eqb (error_name error) "TokenExpiredError" then
        (reject statusCode
           "Reset token has expired. Please request a new password reset."
           "RESET_TOKEN_EXPIRED", table)
      else
        (reject statusCode "Invalid or expired reset token"
           "INVALID_RESET_TOKEN", table)
  end.

End Controller.

(** ** The specification's decision tables

    Definitions written from the specification's words, to be compared with
    the middleware above. *)
Module Spec.

(** The three token types of the specification. *)
Inductive TokenType : Type := access | refresh | reset.

Definition name (t : TokenType) : string :=
  match t with
  | access => "access"
  | refresh => "refresh"
  | reset => "reset"
  end.

(** The environment variable that holds the type's own secret. *)
Definition variable (t : TokenType) : string :=
  match t with
  | access => "JWT_ACCESS_SECRET"
  | refresh => "JWT_REFRESH_SECRET"
  | reset => "JWT_RESET_SECRET"
  end.

Definition nonempty (o : option string) : option string :=
  match o with
  | Some s => if String.eqb s "" then None else Some s
  | None => None
  end.

(** "looks up the secret for tokenType (falls back to a shared default
    secret if a type-specific one is unset)". *)
Definition secret (env : gmap string string) (t : TokenType) : option string :=
  match nonempty (env !! variable t) with
  | Some s => Some s
  | None => nonempty (env !! "JWT_SECRET")
  end.

(** "sets an expiry appropriate to the type (access: 15 minutes; refresh:
    7 days; reset: 1 hour)", in seconds. *)
Definition lifetime (t : TokenType) : Z :=
  match t with
  | access => 15 * 60
  | refresh => 7 * 24 * 60 * 60
  | reset => 60 * 60
  end.

(** What a presented token turns out to be. *)
Inductive TokenState : Type :=
  | NoToken
  | TokenMalformed
  | TokenExpired
  | InvalidTokenType (c : claims)
  | Valid (c : claims).

(** "fails with TokenExpired if current time >= embedded expiry; fails with
    TokenMalformed if signature invalid or structurally corrupt; succeeds
    and returns claims otherwise", followed by the caller's comparison of
    the [tokenType] claim with the expected type.  [secret] is the secret
    of the expected type. *)
Definition examine (secret : string) (now : Z) (expected : TokenType)
    (token : string) : TokenState :=
  match jwt.parse token with
  | None => TokenMalformed
  | Some (c, key) =>
      if negb (String.eqb key secret) then TokenMalformed
      else if match exp c with
              | Some e => Z.leb e (now / 1000)
              | None => false
              end
      then TokenExpired
      else if bool_decide (tokenType c = Some (name expected)) then Valid c
      else InvalidTokenType c
  end.

(** The text after ["Bearer "] up to the next space. *)
Fixpoint until_space (s : string) : string :=
  match s with
  | EmptyString => EmptyString
  | String c rest =>
      if Ascii.eqb c " " then EmptyString else String c (until_space rest)
  end.

(** The bearer token of a request, if its Authorization header starts with
    ["Bearer "]. *)
Definition bearer (req : request) : option string :=
  match authorization req with
  | Some h => until_space <$> jwt.strip "Bearer " h
  | None => None
  end.


(** What a middleware decides: a rejection with a status and a code, or
    to let the request proceed, with the identity or the refresh claims it
    attaches, if any. *)
Inductive Decision : Type :=
  | Reject (status : Z) (code : string)
  | Proceed (identity : option Identity.t)
  | ProceedWithClaims (c : claims).

(** "produce Identity": the authenticated principal of a verified token. *)
Definition identity (c : claims) : Identity.t :=
  {| Identity.id := userId c;
     Identity.email := email c;
     Identity.role := role c |}.



(** The state of the refresh path, under the refresh secret: the token is
    read from the body. *)
Definition refresh_state (secret : string) (now : Z) (req : request)
    : TokenState :=
  match nonempty (body_refreshToken req) with
  | None => NoToken
  | Some token => examine secret now refresh token
  end.

(** The refresh-token verification entry point. *)
Definition refresh_decision (st : TokenState) : Decision :=
  match st with
  | NoToken => Reject 400 "NO_REFRESH_TOKEN"
  | TokenExpired => Reject 401 "REFRESH_TOKEN_EXPIRED"
  | TokenMalformed | InvalidTokenType _ => Reject 401 "INVALID_REFRESH_TOKEN"
  | Valid c => ProceedWithClaims c
  end.

End Spec.

(** ** Derived notions used in the statements *)

(** The payload [generateToken] signs for a known type. *)
Definition issued (now : Z) (payload : claims) (t : Spec.TokenType) : claims :=
  {| userId := userId payload;
     email := email payload;
     role := role payload;
     tokenType := Some (Spec.name t);
     iat := Some (now / 1000);
     exp := Some (now / 1000 + Spec.lifetime t) |}.

(** The outcome of a middleware on [req] carries out a decision.  A
    rejection is a response with that status and code and [success: false].
    Proceeding hands on a request on which [req.user] reads as the identity
    that is attached, or [req.refreshTokenData] as the claims that are
    attached, and every other property reads as it did on [req]; with
    nothing attached the request goes on as it came. *)
Definition realises (req : request) (o : outcome) (d : Spec.Decision) : Prop :=
  match d, o with
  | Spec.Reject s c, Respond res =>
      status res = s /\ code res = Some c /\ success res = false
  | Spec.Proceed None, Next req' => req' = req
  | Spec.Proceed (Some i), Next req' =>
      user req' = Some i
      /\ authorization req' = authorization req
      /\ body_refreshToken req' = body_refreshToken req
      /\ path req' = path req /\ ip req' = ip req
      /\ refreshTokenData req' = refreshTokenData req
  | Spec.ProceedWithClaims c, Next req' =>
      refreshTokenData req' = Some c
      /\ authorization req' = authorization req
      /\ body_refreshToken req' = body_refreshToken req
      /\ path req' = path req /\ ip req' = ip req
      /\ user req' = user req
  | _, _ => False
  end.

(** The identity's role is one of the allowed roles. *)
Definition allowed (allowedRoles : list string) (u : Identity.t) : Prop :=
  exists r, Identity.role u = Some r /\ r ∈ allowedRoles.

(** ** Example data *)

Definition demo_env : gmap string string := {[ "JWT_SECRET" := "s3cr3t" ]}.

Definition demo_user : User.t :=
  {| User.id := 7; User.username := "bob"; User.email := "bob@example.com";
     User.password := Some "$2a$10$oldsaltoldsaltoldsalt01digest";
     User.displayName := Some "Bob"; User.role := "user";
     User.isActive := true; User.emailVerified := false |}.

Definition no_tokens : AuthTokens :=
  {| accessToken := ""; refreshToken := "";
     accessTokenExpiry := ""; refreshTokenExpiry := "" |}.

(** The tokens issued to [demo_user] at clock 5000 ms. *)
Definition demo_tokens : AuthTokens :=
  match generateAuthTokens demo_env 5000 5001 demo_user with
  | Ok tokens => tokens
  | Throw _ => no_tokens
  end.

Definition demo_request : request :=
  {| authorization := None; body_refreshToken := None;
     path := "/api/posts"; ip := "203.0.113.9";
     user := None; refreshTokenData := None |}.

Definition with_authorization (req : request) (h : string) : request :=
  {| authorization := Some h; body_refreshToken := body_refreshToken req;
     path := path req; ip := ip req; user := user req;
     refreshTokenData := refreshTokenData req |}.

Definition with_refreshToken (req : request) (token : string) : request :=
  {| authorization := authorization req; body_refreshToken := Some token;
     path := path req; ip := ip req; user := user req;
     refreshTokenData := refreshTokenData req |}.

Definition demo_admin : Identity.t :=
  {| Identity.id := Some 1; Identity.email := Some "root@example.com";
     Identity.role := Some "admin" |}.

Definition demo_random : string := "abcdefghijklmnopqrstuv".

(** ** [server/config/jwt.js]: expiry introspection *)

(** [isTokenExpired(token)] with [Date.now() = now]; [jwt.decode] does not
    throw on a string, so the [catch] branch is not reached. *)
Definition isTokenExpired (now : Z) (token : string) : bool :=
  match decodeToken token with
  | None => true
  | Some decoded =>
      match exp decoded with
      | None => true
      | Some e =>
          if Z.eqb e 0 then true
          else
            let currentTime := now / 1000 in
            Z.ltb e currentTime
      end
  end.

(** [getTokenExpiry(token)]: [decoded?.exp || null]. *)
Definition getTokenExpiry (token : string) : option Z :=
  match decodeToken token with
  | None => None
  | Some decoded =>
      match exp decoded with
      | Some e => if Z.eqb e 0 then None else Some e
      | None => None
      end
  end.

(** ** Routes behind [authenticate] and [authorize]

    [app.get('/api/admin', authenticate, authorize('admin'), ..)] and
    [router.get('/admin/users', authenticate, authorize('admin'), ..)]: the
    second middleware runs on the request the first one hands on. *)
Definition guarded (allowedRoles : list string) (env : gmap string string)
    (now : Z) (req : request) : outcome :=
  match authenticate env now req with
  | Respond res => Respond res
  | Next req' => authorize allowedRoles req'
  end.

(** ** The rate limiter with its response hook *)

(** One request through [rateLimit(options)] and the route behind it, which
    answers with [downstream] when the request is let through: the store
    after the response has been sent.  A skipped request installs no hook. *)
Definition served (o : rateLimit.Options) (now : Z)
    (store : gmap string (Z * Z)) (req : request) (downstream : Z)
    : gmap string (Z * Z) :=
  if rateLimit.skipped o req then store
  else
    let '(out, store') := rateLimit.handle o now store req in
    rateLimit.finish o store' req
      match out with
      | Respond res => status res
      | Next _ => downstream
      end.

(** A run of requests through [rateLimit(options)] and the routes behind
    it, each request with its arrival time and the status the route answers
    with when the request is let through: the limiter's outcomes, oldest
    first.  The store each request meets is the one the response hook of
    the request before has left. *)
Fixpoint traffic (o : rateLimit.Options) (store : gmap string (Z * Z))
    (reqs : list (Z * request * Z)) : list outcome :=
  match reqs with
  | [] => []
  | (now, req, downstream) :: rest =>
      fst (rateLimit.handle o now store req)
      :: traffic o (served o now store req downstream) rest
  end.

(** ** The [User] model: class and instance methods *)

(** [User.findByEmailForAuth(email)]: scope [withPassword]. *)
Definition findByEmailForAuth (table : list User.t) (email : string)
    : option User.t :=
  find (fun row =>
          String.eqb (User.email row) (trim (toLowerCase email))
          && Bool.eqb (User.isActive row) true)
       table.

(** [User.findByUsernameForAuth(username)] *)
Definition findByUsernameForAuth (table : list User.t) (username : string)
    : option User.t :=
  find (fun row =>
          String.eqb (User.username row) username
          && Bool.eqb (User.isActive row) true)
       table.

(** [User.findByPk(id)] *)
Definition findByPk (table : list User.t) (id : option Z) : option User.t :=
  match id with
  | Some n => find (fun row => Z.eqb (User.id row) n) table
  | None => None
  end.

(** [user.getPublicProfile()] *)
Definition getPublicProfile (user : User.t) : User.t :=
  with_password user None.

(** [error.message] *)
Definition error_message (e : error) : string :=
  match e with
  | Error m => m
  | JsonWebTokenError m => m
  | TokenExpiredError => "jwt expired"
  | TypeError m => m
  | SequelizeValidationError m => m
  end.

(** ** The authentication controller: login, password change, password
       reset request, token refresh *)

(** [res.cookie('refreshToken', value, options)] *)
Record Cookie : Type := mkCookie {
  cookie_value : string;
  httpOnly : bool;
  secure : bool;
  sameSite : string;
  maxAge : Z
}.

(** What [login] sends: a rejection (the 500 carries [error.message] in
    development), or the 200 with the public profile, the access token and
    its lifetime, together with the refresh cookie. *)
Inductive LoginResult : Type :=
  | LoginRejected (res : response) (error : option string)
  | LoggedIn (profile : User.t) (accessToken expiresIn : string)
      (refreshCookie : Cookie).

(** What [forgotPassword] sends and prints: the response, the [debug]
    object of the body if any ([resetToken], [resetLink]), and the line
    written with [console.log]. *)
Record ForgotResult : Type := mkForgot {
  forgot_response : response;
  forgot_debug : option (string * string);
  forgot_log : option string
}.

(** A [ReferenceError] besides the exceptions of [error]. *)
Inductive thrown : Type :=
  | Thrown (e : error)
  | ReferenceError (message : string).

Definition thrown_name (t : thrown) : string :=
  match t with
  | Thrown e => error_name e
  | ReferenceError _ => "ReferenceError"
  end.

(** [{ success: true, message }] with status 200. *)
Definition accept (message : string) : response :=
  {| status := 200; success := true; message := message;
     code := None; requiredRoles := None; userRole := None |}.

Section Handlers.

Variable isEmail : string -> bool.

(** [bcrypt.compare(s, hash)], for two strings. *)
Variable bcrypt_compare : string -> string -> bool.

(** [user.updateLastLogin()]: whether it throws.  (What the call does in
    this repository is [updateLastLogin] below.) *)
Variable updateLastLogin : User.t -> result unit.

(** [user.comparePassword(candidatePassword)] *)
Definition comparePassword (user : User.t) (candidatePassword : string)
    : result bool :=
  match User.password user with
  | Some hash => Ok (bcrypt_compare candidatePassword hash)
  | None => Throw (Error "Illegal arguments: string, undefined")
  end.

(** [login(req, res)] with [req.body = { email, username, password }]. *)
Definition login (env : gmap string string) (now_access now_refresh : Z)
    (table : list User.t) (email username : option string)
    (password : string) : LoginResult :=
  let attempt : result LoginResult :=
    let user :=
      if truthy (of_option email) then
        findByEmailForAuth table (default EmptyString email)
      else if truthy (of_option username) then
        findByUsernameForAuth table (default EmptyString username)
      else None in
    match user with
    | None =>
        Ok (LoginRejected
              (reject 401 "Invalid credentials" "INVALID_CREDENTIALS") None)
    | Some user =>
        if negb (User.isActive user) then
          Ok (LoginRejected
                (reject 403 "Account is deactivated. Please contact support."
                   "ACCOUNT_DEACTIVATED") None)
        else
          let* isPasswordValid := comparePassword user password in
          if negb isPasswordValid then
            Ok (LoginRejected
                  (reject 401 "Invalid credentials" "INVALID_CREDENTIALS") None)
          else
            let* tokens := generateAuthTokens env now_access now_refresh user in
            let* _ := updateLastLogin user in
            let userProfile := getPublicProfile user in
            Ok (LoggedIn userProfile (accessToken tokens)
                  (accessTokenExpiry tokens)
                  {| cookie_value := refreshToken tokens;
                     httpOnly := true;
                     secure :=
                       bool_decide (getenv env "NODE_ENV" = Str "production");
                     sameSite := "strict";
                     maxAge := 7 * 24 * 60 * 60 * 1000 |})
    end in
  match attempt with
  | Ok r => r
  | Throw error =>
      LoginRejected (reject 500 "Login failed" "LOGIN_ERROR")
        (if bool_decide (getenv env "NODE_ENV" = Str "development")
         then Some (error_message error) else None)
  end.

(** [changePassword(req, res)] with [req.user.id = id] and
    [req.body = { currentPassword, newPassword }]: the response and the
    table afterwards. *)
Definition changePassword (table : list User.t) (id : option Z)
    (currentPassword newPassword random : string)
    : response * list User.t :=
  let attempt : result (response * list User.t) :=
    match findByPk table id with
    | None => Ok (reject 404 "User not found" "USER_NOT_FOUND", table)
    | Some row =>
        let* isPasswordValid := comparePassword row currentPassword in
        if negb isPasswordValid then
          Ok (reject 401 "Current password is incorrect" "INCORRECT_PASSWORD",
              table)
        else
          let user :=
            {| Model.dataValues := row; Model.changed_keys := [];
               Model.isNewRecord := false |} in
          let user := set_password user newPassword in
          let* saved := save isEmail row user random in
          Ok (accept "Password changed successfully",
              store_row table (snd saved))
    end in
  match attempt with
  | Ok r => r
  | Throw _ =>
      (reject 500 "Failed to change password" "PASSWORD_CHANGE_ERROR", table)
  end.

End Handlers.

(** [user.updateLastLogin()] as the model of this repository has it: the
    model defines no such method, so the call throws. *)
Definition updateLastLogin (user : User.t) : result unit :=
  Throw (TypeError "user.updateLastLogin is not a function").

(** [`${value}`] for an environment variable. *)
Definition template (v : jsval) : string :=
  match v with
  | Str s => s
  | undefined => "undefined"
  | Obj name => name
  end.

(** [forgotPassword(req, res)] with [req.body = { email }]. *)
Definition forgotPassword (env : gmap string string) (now : Z)
    (table : list User.t) (email : string) : ForgotResult :=
  let generic :=
    "If an account exists with this email, you will receive a password reset link." in
  let attempt : result ForgotResult :=
    match findOne_by_email table (toLowerCase email) with
    | None =>
        Ok {| forgot_response := accept generic;
              forgot_debug := None; forgot_log := None |}
    | Some user =>
        if negb (User.isActive user) then
          Ok {| forgot_response :=
                  reject 403 "Account is deactivated" "ACCOUNT_DEACTIVATED";
                forgot_debug := None; forgot_log := None |}
        else
          let* resetToken := generateResetToken env now (User.email user) in
          let resetLink :=
            template (getenv env "CLIENT_URL")
            +:+ "/reset-password?token=" +:+ resetToken in
          Ok {| forgot_response := accept generic;
                forgot_debug :=
                  if bool_decide (getenv env "NODE_ENV" = Str "development")
                  then Some (resetToken, resetLink) else None;
                forgot_log :=
                  Some ("Password reset link for " +:+ User.email user
                        +:+ ": " +:+ resetLink) |}
    end in
  match attempt with
  | Ok r => r
  | Throw _ =>
      {| forgot_response :=
           reject 500 "Failed to process password reset request"
             "PASSWORD_RESET_ERROR";
         forgot_debug := None; forgot_log := None |}
  end.

(** [refreshToken(req, res)], the handler behind [verifyRefreshToken].  The
    controller imports [generateAuthTokens], [generateResetToken],
    [verifyToken] and [JWT_CONFIG] from the token module, not
    [generateToken]: the call of [generateToken] throws a
    [ReferenceError]. *)
Definition refreshToken_handler (env : gmap string string) (now : Z)
    (table : list User.t) (req : request) : response :=
  let attempt : response + thrown :=
    let refreshToken := body_refreshToken req in
    if negb (truthy (of_option refreshToken)) then
      inl (reject 400 "Refresh token is required" "NO_REFRESH_TOKEN")
    else
      match verifyToken env now (default EmptyString refreshToken)
              TOKEN_TYPES.REFRESH with
      | Throw e => inr (Thrown e)
      | Ok decoded =>
          match findByPk table (userId decoded) with
          | None =>
              inl (reject 401 "Invalid refresh token" "INVALID_REFRESH_TOKEN")
          | Some user =>
              if negb (User.isActive user) then
                inl (reject 401 "Invalid refresh token" "INVALID_REFRESH_TOKEN")
              else inr (ReferenceError "generateToken is not defined")
          end
      end in
  match attempt with
  | inl res => res
  | inr error =>
      let statusCode := 401 in
      if String.eqb (thrown_name error) "TokenExpiredError" then
        reject statusCode "Refresh token expired. Please log in again."
          "REFRESH_TOKEN_EXPIRED"
      else reject statusCode "Invalid refresh token" "INVALID_REFRESH_TOKEN"
  end.

(** [router.post('/refresh-token', verifyRefreshToken,
    authController.refreshToken)]; [now] and [later] are the clock readings
    of the middleware and of the handler. *)
Definition refresh_route (env : gmap string string) (now later : Z)
    (table : list User.t) (req : request) : response :=
  match verifyRefreshToken env now req with
  | Respond res => res
  | Next req' => refreshToken_handler env later table req'
  end.

(** * Properties *)

(** ** The wire form *)

Lemma pos_of_bits_of_pos (p : positive) :
  jwt.pos_of_bits (jwt.bits_of_pos p) = Some p.
Proof.
  induction p as [q IH | q IH | ]; simpl; try rewrite IH; reflexivity.
Qed.

Lemma strip_app (pre s : string) : jwt.strip pre (pre +:+ s) = Some s.
Proof.
  induction pre as [| a pre IH]; simpl; [reflexivity |].
  rewrite Ascii.eqb_refl. exact IH.
Qed.

Lemma parse_render (c : claims) (key : string) :
  jwt.parse (jwt.render c key) = Some (c, key).
Proof.
  unfold jwt.parse, jwt.render.
  replace (jwt.header +:+ "." +:+ jwt.bits_of_pos (encode (c, key)))
    with ((jwt.header +:+ ".") +:+ jwt.bits_of_pos (encode (c, key)))
    by reflexivity.
  rewrite strip_app. simpl.
  rewrite pos_of_bits_of_pos. simpl.
  apply decode_encode.
Qed.

Lemma render_not_empty (c : claims) (key : string) :
  String.eqb (jwt.render c key) "" = false.
Proof. reflexivity. Qed.

Lemma parse_empty : jwt.parse "" = None.
Proof. reflexivity. Qed.

Lemma prefix_strip (pre s : string) :
  String.prefix pre s = match jwt.strip pre s with Some _ => true | None => false end.
Proof.
  revert s. induction pre as [| a pre IH]; intros [| b s]; simpl; try reflexivity.
  destruct (ascii_dec a b) as [-> | Hne].
  - rewrite Ascii.eqb_refl. apply IH.
  - apply Ascii.eqb_neq in Hne. rewrite Hne. reflexivity.
Qed.


Lemma split_not_nil (sep : ascii) (s : string) : split sep s <> [].
Proof.
  induction s as [| c s IH]; simpl; [discriminate |].
  destruct (Ascii.eqb c sep); [discriminate |].
  destruct (split sep s); [contradiction | discriminate].
Qed.

Lemma split_head (s : string) :
  hd EmptyString (split " " s) = Spec.until_space s.
Proof.
  induction s as [| c s IH]; simpl; [reflexivity |].
  destruct (Ascii.eqb c " "); simpl; [reflexivity |].
  destruct (split " " s) as [| first others] eqn:E.
  - exfalso. exact (split_not_nil _ _ E).
  - simpl in *. rewrite IH. reflexivity.
Qed.

Lemma bearer_token_app (rest : string) :
  bearer_token ("Bearer " +:+ rest) = Spec.until_space rest.
Proof.
  unfold bearer_token. cbv beta iota fix delta [String.append].
  simpl.
  destruct (split " " rest) as [| first others] eqn:Es.
  - exfalso. exact (split_not_nil _ _ Es).
  - simpl. rewrite <- split_head, Es. reflexivity.
Qed.


(** ** Secrets *)

Lemma truthy_Str (s : string) : truthy (Str s) = negb (String.eqb s "").
Proof. reflexivity. Qed.

Lemma js_or_getenv (env : gmap string string) (a b : string) :
  js_or (getenv env a) (getenv env b) =
  match Spec.nonempty (env !! a) with
  | Some s => Str s
  | None => getenv env b
  end.
Proof.
  unfold js_or, getenv, Spec.nonempty.
  destruct (env !! a) as [s |]; simpl; [| reflexivity].
  destruct (String.eqb s ""); reflexivity.
Qed.

(** For the three token types the lookup is the type's own secret, else the
    shared one, else the configuration error. *)
Lemma getSecretByType_known (env : gmap string string) (t : Spec.TokenType) :
  getSecretByType env (Spec.name t) =
  match Spec.secret env t with
  | Some s => Ok (Str s)
  | None => Throw (ConfigurationError (Spec.name t))
  end.
Proof.
  unfold getSecretByType, get_property, Spec.secret.
  unfold TOKEN_TYPES.ACCESS, TOKEN_TYPES.REFRESH, TOKEN_TYPES.RESET.
  destruct t; simpl Spec.name; simpl Spec.variable.
  - rewrite lookup_insert_ne by done. rewrite lookup_insert_ne by done.
    rewrite lookup_insert_eq. rewrite js_or_getenv.
    destruct (Spec.nonempty (env !! "JWT_ACCESS_SECRET")) as [s |] eqn:E.
    + unfold Spec.nonempty in E. destruct (env !! "JWT_ACCESS_SECRET"); [| discriminate].
      destruct (String.eqb s0 "") eqn:E0; [discriminate |].
      injection E as <-. simpl. rewrite E0. reflexivity.
    + unfold getenv, Spec.nonempty.
      destruct (env !! "JWT_SECRET") as [s |]; simpl; [| reflexivity].
      destruct (String.eqb s ""); reflexivity.
  - rewrite lookup_insert_ne by done. rewrite lookup_insert_eq.
    rewrite js_or_getenv.
    destruct (Spec.nonempty (env !! "JWT_REFRESH_SECRET")) as [s |] eqn:E.
    + unfold Spec.nonempty in E. destruct (env !! "JWT_REFRESH_SECRET"); [| discriminate].
      destruct (String.eqb s0 "") eqn:E0; [discriminate |].
      injection E as <-. simpl. rewrite E0. reflexivity.
    + unfold getenv, Spec.nonempty.
      destruct (env !! "JWT_SECRET") as [s |]; simpl; [| reflexivity].
      destruct (String.eqb s ""); reflexivity.
  - rewrite lookup_insert_eq. rewrite js_or_getenv.
    destruct (Spec.nonempty (env !! "JWT_RESET_SECRET")) as [s |] eqn:E.
    + unfold Spec.nonempty in E. destruct (env !! "JWT_RESET_SECRET"); [| discriminate].
      destruct (String.eqb s0 "") eqn:E0; [discriminate |].
      injection E as <-. simpl. rewrite E0. reflexivity.
    + unfold getenv, Spec.nonempty.
      destruct (env !! "JWT_SECRET") as [s |]; simpl; [| reflexivity].
      destruct (String.eqb s ""); reflexivity.
Qed.

Lemma secret_not_empty (env : gmap string string) (t : Spec.TokenType) (s : string) :
  Spec.secret env t = Some s -> String.eqb s "" = false.
Proof.
  unfold Spec.secret, Spec.nonempty. intros H.
  destruct (env !! Spec.variable t) as [a |].
  - destruct (String.eqb a "") eqn:Ea.
    + destruct (env !! "JWT_SECRET") as [b |]; [| discriminate].
      destruct (String.eqb b "") eqn:Eb; [discriminate |]. congruence.
    + congruence.
  - destruct (env !! "JWT_SECRET") as [b |]; [| discriminate].
    destruct (String.eqb b "") eqn:Eb; [discriminate |]. congruence.
Qed.

(** ** Verification *)

Lemma verifyToken_known (env : gmap string string) (now : Z)
    (t : Spec.TokenType) (token : string) :
  verifyToken env now token (Spec.name t) =
  match Spec.secret env t with
  | Some s => jwt.verify token (Str s) now
  | None => Throw (ConfigurationError (Spec.name t))
  end.
Proof.
  unfold verifyToken. rewrite getSecretByType_known.
  destruct (Spec.secret env t); reflexivity.
Qed.

Lemma verify_Str (token s : string) (now : Z) :
  String.eqb s "" = false ->
  jwt.verify token (Str s) now =
  if String.eqb token "" then Throw (JsonWebTokenError "jwt must be provided")
  else
    match jwt.parse token with
    | None => Throw (JsonWebTokenError "jwt malformed")
    | Some (c, key) =>
        if negb (String.eqb key s) then
          Throw (JsonWebTokenError "invalid signature")
        else
          match exp c with
          | Some e => if Z.leb e (now / 1000) then Throw TokenExpiredError else Ok c
          | None => Ok c
          end
    end.
Proof.
  intros Hs. unfold jwt.verify. rewrite truthy_Str, Hs. reflexivity.
Qed.

(** What [verifyToken] returns for each state of the presented token, when
    the secret of the type resolves: the verification itself never looks at
    the [tokenType] claim. *)
Lemma verifyToken_examine (env : gmap string string) (now : Z)
    (t : Spec.TokenType) (secret token : string) :
  Spec.secret env t = Some secret ->
  match Spec.examine secret now t token with
  | Spec.NoToken => False
  | Spec.TokenMalformed =>
      exists m, verifyToken env now token (Spec.name t)
                = Throw (JsonWebTokenError m)
  | Spec.TokenExpired =>
      verifyToken env now token (Spec.name t) = Throw TokenExpiredError
  | Spec.InvalidTokenType c =>
      verifyToken env now token (Spec.name t) = Ok c
      /\ tokenType c <> Some (Spec.name t)
  | Spec.Valid c =>
      verifyToken env now token (Spec.name t) = Ok c
      /\ tokenType c = Some (Spec.name t)
  end.
Proof.
  intros Es. rewrite verifyToken_known, Es. unfold Spec.examine.
  rewrite (verify_Str _ _ _ (secret_not_empty _ _ _ Es)).
  destruct (String.eqb token "") eqn:Et.
  - apply String.eqb_eq in Et. subst token. rewrite parse_empty. eauto.
  - destruct (jwt.parse token) as [[c key] |]; [| eauto].
    destruct (negb (String.eqb key secret)); [eauto |].
    destruct (exp c) as [e |].
    + destruct (Z.leb e (now / 1000)); [reflexivity |].
      destruct (bool_decide (tokenType c = Some (Spec.name t))) eqn:Eb.
      * apply bool_decide_eq_true in Eb. auto.
      * apply bool_decide_eq_false in Eb. auto.
    + destruct (bool_decide (tokenType c = Some (Spec.name t))) eqn:Eb.
      * apply bool_decide_eq_true in Eb. auto.
      * apply bool_decide_eq_false in Eb. auto.
Qed.

Lemma verifyToken_unconfigured (env : gmap string string) (now : Z)
    (t : Spec.TokenType) (token : string) :
  Spec.secret env t = None ->
  verifyToken env now token (Spec.name t)
  = Throw (ConfigurationError (Spec.name t)).
Proof. intros Es. rewrite verifyToken_known, Es. reflexivity. Qed.

(** ** The access-token path *)



(** ** Issuing *)

Lemma getExpiryByType_known (t : Spec.TokenType) :
  exists span, getExpiryByType (Spec.name t) = Str span
               /\ jwt.timespan span = Some (Spec.lifetime t).
Proof.
  destruct t;
    [exists ACCESS_TOKEN_EXPIRY | exists REFRESH_TOKEN_EXPIRY
     | exists RESET_TOKEN_EXPIRY]; split; reflexivity.
Qed.

Lemma generateToken_known (env : gmap string string) (now : Z)
    (payload : claims) (t : Spec.TokenType) :
  exp payload = None ->
  generateToken env now payload (Spec.name t) =
  match Spec.secret env t with
  | Some s => Ok (jwt.render (issued now payload t) s)
  | None => Throw (ConfigurationError (Spec.name t))
  end.
Proof.
  intros Hexp. unfold generateToken. rewrite getSecretByType_known.
  destruct (Spec.secret env t) as [s |] eqn:Es; [| reflexivity].
  simpl bind. unfold jwt.sign.
  rewrite truthy_Str, (secret_not_empty _ _ _ Es). simpl negb. cbv iota.
  simpl exp. rewrite Hexp.
  destruct (getExpiryByType_known t) as (span & -> & ->).
  simpl iat. unfold issued.
  destruct (Z.eqb (now / 1000) 0); reflexivity.
Qed.

Lemma verify_render (c : claims) (key s : string) (now : Z) :
  String.eqb s "" = false ->
  jwt.verify (jwt.render c key) (Str s) now =
  if negb (String.eqb key s) then Throw (JsonWebTokenError "invalid signature")
  else
    match exp c with
    | Some e => if Z.leb e (now / 1000) then Throw TokenExpiredError else Ok c
    | None => Ok c
    end.
Proof.
  intros Hs. rewrite (verify_Str _ _ _ Hs).
  rewrite render_not_empty, parse_render. reflexivity.
Qed.

(** [generateAuthTokens] succeeds as soon as the access and the refresh
    secret resolve. *)
Lemma generateAuthTokens_total (env : gmap string string)
    (now_access now_refresh : Z) (user : User.t) :
  is_Some (Spec.secret env Spec.access) ->
  is_Some (Spec.secret env Spec.refresh) ->
  exists tokens, generateAuthTokens env now_access now_refresh user = Ok tokens.
Proof.
  intros [sa Ha] [sr Hr]. unfold generateAuthTokens.
  change TOKEN_TYPES.ACCESS with (Spec.name Spec.access).
  change TOKEN_TYPES.REFRESH with (Spec.name Spec.refresh).
  rewrite !generateToken_known by reflexivity.
  rewrite Ha, Hr. simpl. eauto.
Qed.

(** C3: the two tokens of one [generateAuthTokens] call decode to the same
    subject claims, those of the user (userId, email, role); every
    successful verification of the access token with expected type access
    returns these subject claims, and the verification succeeds at every
    clock reading before the token's expiry, 15 minutes after issue. *)
Theorem generateAuthTokens_round_trip (env : gmap string string)
    (now_access now_refresh : Z) (user : User.t) (tokens : AuthTokens) :
  generateAuthTokens env now_access now_refresh user = Ok tokens ->
  let identity :=
    (Some (User.id user), Some (User.email user), Some (User.role user)) in
  (exists a r,
      decodeToken (accessToken tokens) = Some a
      /\ decodeToken (refreshToken tokens) = Some r
      /\ subject a = identity /\ subject r = identity)
  /\ (forall now c,
         verifyToken env now (accessToken tokens) TOKEN_TYPES.ACCESS = Ok c ->
         subject c = identity /\ tokenType c = Some TOKEN_TYPES.ACCESS)
  /\ (forall now,
         now / 1000 < now_access / 1000 + 15 * 60 ->
         exists c,
           verifyToken env now (accessToken tokens) TOKEN_TYPES.ACCESS = Ok c).
Proof.
  unfold generateAuthTokens.
  change TOKEN_TYPES.ACCESS with (Spec.name Spec.access).
  change TOKEN_TYPES.REFRESH with (Spec.name Spec.refresh).
  rewrite !generateToken_known by reflexivity.
  destruct (Spec.secret env Spec.access) as [sa |] eqn:Ha; [| discriminate].
  destruct (Spec.secret env Spec.refresh) as [sr |] eqn:Hr; [| discriminate].
  simpl. intros H. injection H as <-. simpl.
  split; [| split].
  - unfold decodeToken, jwt.decode. rewrite !parse_render.
    do 2 eexists. repeat split; reflexivity.
  - intros now c. rewrite (verifyToken_known env now Spec.access), Ha.
    rewrite (verify_render _ _ _ _ (secret_not_empty _ _ _ Ha)).
    rewrite String.eqb_refl. simpl.
    destruct (Z.leb _ _); [discriminate |].
    intros H. injection H as <-. split; reflexivity.
  - intros now Hnow. rewrite (verifyToken_known env now Spec.access), Ha.
    rewrite (verify_render _ _ _ _ (secret_not_empty _ _ _ Ha)).
    rewrite String.eqb_refl. simpl.
    destruct (Z.leb _ _) eqn:E; [apply Z.leb_le in E; lia | eauto].
Qed.

(** ** The refresh-token path *)

(** C6 (counterexample): with no secret configured, the refresh token
    issued to the example user is answered 401 INVALID_REFRESH_TOKEN, two
    seconds after issue (where the claim has the request proceed) as well as
    after its expiry (where the claim has REFRESH_TOKEN_EXPIRED, the answer
    under the configured secret). *)
Lemma verifyRefreshToken_without_secret :
  verifyRefreshToken ∅ 7000
    (with_refreshToken demo_request (refreshToken demo_tokens))
  = Respond (reject 401 "Invalid refresh token." "INVALID_REFRESH_TOKEN")
  /\ verifyRefreshToken ∅ (8 * 24 * 60 * 60 * 1000)
       (with_refreshToken demo_request (refreshToken demo_tokens))
     = Respond (reject 401 "Invalid refresh token." "INVALID_REFRESH_TOKEN")
  /\ verifyRefreshToken demo_env (8 * 24 * 60 * 60 * 1000)
       (with_refreshToken demo_request (refreshToken demo_tokens))
     = Respond (reject 401 "Refresh token has expired. Please log in again."
                  "REFRESH_TOKEN_EXPIRED").
Proof. repeat split; vm_compute; reflexivity. Qed.

(** C6 (amended): the refresh-token verification entry point reads the
    token from the request body.  With no token in the body it answers 400
    NO_REFRESH_TOKEN.  When the refresh secret resolves it carries out the
    specification's decision for the token: expired, 401
    REFRESH_TOKEN_EXPIRED, with the log-in-again message; malformed, wrongly
    signed or of another type, 401 INVALID_REFRESH_TOKEN; a verified refresh
    token, the request proceeds with [req.refreshTokenData] reading as the
    decoded claims and everything else as before.  When no refresh secret
    resolves, every token is answered 401 INVALID_REFRESH_TOKEN.  The
    Authorization header is not read: with another header the answer is
    the same, and so is the request handed on but for that header. *)
Theorem verifyRefreshToken_follows_spec (env : gmap string string) (now : Z)
    (req : request) :
  match Spec.secret env Spec.refresh with
  | Some secret =>
      realises req (verifyRefreshToken env now req)
        (Spec.refresh_decision (Spec.refresh_state secret now req))
      /\ (Spec.refresh_state secret now req = Spec.TokenExpired ->
          verifyRefreshToken env now req
          = Respond (reject 401
                       "Refresh token has expired. Please log in again."
                       "REFRESH_TOKEN_EXPIRED"))
  | None =>
      realises req (verifyRefreshToken env now req)
        match Spec.nonempty (body_refreshToken req) with
        | None => Spec.Reject 400 "NO_REFRESH_TOKEN"
        | Some _ => Spec.Reject 401 "INVALID_REFRESH_TOKEN"
        end
  end
  /\ forall header,
       verifyRefreshToken env now (with_authorization req header)
       = match verifyRefreshToken env now req with
         | Respond res => Respond res
         | Next req' => Next (with_authorization req' header)
         end.
Proof.
  split.
  - unfold verifyRefreshToken, Spec.refresh_state.
    destruct (body_refreshToken req) as [token |];
      [| destruct (Spec.secret env Spec.refresh); simpl; auto;
         split; [auto | discriminate]].
    simpl of_option. rewrite truthy_Str. simpl Spec.nonempty.
    destruct (String.eqb token "");
      [destruct (Spec.secret env Spec.refresh); simpl; auto;
       split; [auto | discriminate] |].
    simpl negb. cbv iota zeta. simpl default.
    change TOKEN_TYPES.REFRESH with (Spec.name Spec.refresh).
    destruct (Spec.secret env Spec.refresh) as [secret |] eqn:Es.
    + pose proof (verifyToken_examine env now Spec.refresh secret token Es)
        as Hv.
      destruct (Spec.examine secret now Spec.refresh token) as [| | | c | c].
      * contradiction.
      * destruct Hv as [m Hv]. rewrite Hv. simpl.
        split; [auto | discriminate].
      * rewrite Hv. simpl. split; [auto | reflexivity].
      * destruct Hv as [Hv Hty]. rewrite Hv. simpl.
        rewrite bool_decide_eq_false_2 by exact Hty. simpl.
        split; [auto | discriminate].
      * destruct Hv as [Hv Hty]. rewrite Hv. simpl.
        rewrite bool_decide_eq_true_2 by exact Hty. simpl.
        split; [repeat split; reflexivity | discriminate].
    + rewrite (verifyToken_unconfigured env now Spec.refresh token Es).
      simpl. auto.
  - intros header. unfold verifyRefreshToken.
    change (body_refreshToken (with_authorization req header))
      with (body_refreshToken req).
    destruct (negb (truthy (of_option (body_refreshToken req))));
      [reflexivity |].
    destruct (verifyToken env now _ TOKEN_TYPES.REFRESH) as [c | err].
    + simpl bind.
      destruct (negb (bool_decide (tokenType c = Some TOKEN_TYPES.REFRESH)));
        reflexivity.
    + simpl bind. cbv iota.
      destruct (String.eqb (error_name err) "TokenExpiredError");
        reflexivity.
Qed.

(** ** Authorization *)

Lemma allowed_decide (allowedRoles : list string) (u : Identity.t) :
  allowed allowedRoles u <-> Identity.role u ∈ (Some <$> allowedRoles).
Proof.
  unfold allowed. rewrite list_elem_of_fmap. split.
  - intros (r & Hr & Hin). exists r. auto.
  - intros (r & Hr & Hin). exists r. auto.
Qed.

(** C7: with no identity attached the authorization check answers 401
    NOT_AUTHENTICATED; with an identity whose role is not among the allowed
    roles it answers 403 INSUFFICIENT_PERMISSIONS and the response carries
    the allowed roles and the identity's role; otherwise the request
    proceeds.  A moderator at an operation gated to admin gets
    requiredRoles = [admin] and userRole = moderator. *)
Theorem authorize_decision (allowedRoles : list string) (req : request) :
  match user req with
  | None =>
      authorize allowedRoles req
      = Respond (reject 401 "User not authenticated." "NOT_AUTHENTICATED")
  | Some u =>
      (allowed allowedRoles u -> authorize allowedRoles req = Next req)
      /\ (~ allowed allowedRoles u ->
          authorize allowedRoles req
          = Respond
              {| status := 403; success := false;
                 message := "You do not have permission to perform this action.";
                 code := Some "INSUFFICIENT_PERMISSIONS";
                 requiredRoles := Some allowedRoles;
                 userRole := Identity.role u |})
  end
  /\ forall i e,
       authorize ["admin"]
         (set_user req {| Identity.id := i; Identity.email := e;
                          Identity.role := Some "moderator" |})
       = Respond
           {| status := 403; success := false;
              message := "You do not have permission to perform this action.";
              code := Some "INSUFFICIENT_PERMISSIONS";
              requiredRoles := Some ["admin"];
              userRole := Some "moderator" |}.
Proof.
  split; [| reflexivity].
  unfold authorize. destruct (user req) as [u |]; [| reflexivity].
  split; intros H.
  - apply allowed_decide in H. rewrite bool_decide_eq_true_2 by exact H.
    reflexivity.
  - rewrite allowed_decide in H. rewrite bool_decide_eq_false_2 by exact H.
    reflexivity.
Qed.

(** ** Token types are not checked by every caller *)

(** C1 (failing input): with one shared secret, the access token issued to
    a user is turned away by the refresh-token entry point as a token of the
    wrong type, yet the password-reset handler, which calls [verifyToken]
    with the reset type and never compares the [tokenType] claim, accepts
    the same access token and replaces the user's password. *)
Theorem resetPassword_accepts_access_token :
  generateAuthTokens demo_env 5000 5001 demo_user = Ok demo_tokens
  /\ verifyRefreshToken demo_env 6000
       (with_refreshToken demo_request (accessToken demo_tokens))
     = Respond (reject 401 "Invalid refresh token type." "INVALID_REFRESH_TOKEN")
  /\ resetPassword (fun _ => true) demo_env 6000 [demo_user]
       (accessToken demo_tokens) "N3wPassword!" demo_random
     = ({| status := 200; success := true;
           message := "Password reset successful. You can now log in with your new password.";
           code := None; requiredRoles := None; userRole := None |},
        [with_password demo_user
           (Some (bcrypt.genSalt 10 demo_random +:+ bcrypt.digest "N3wPassword!"))]).
Proof.
  split; [| split]; vm_compute; reflexivity.
Qed.

(** ** Rate limiting *)

(** C8 (failing input): [skipRateLimit] says an admin request is exempt,
    but the limiters are created without a [skip] option, so the general
    limiter lets the first 100 requests of an admin through and answers the
    101st of the same window with 429 RATE_LIMIT_EXCEEDED. *)
Theorem generalLimiter_throttles_admin :
  skipRateLimit (set_user demo_request demo_admin) = true
  /\ rateLimit.run generalLimiter ∅
       (replicate 101 (0, set_user demo_request demo_admin))
     = replicate 100 (Next (set_user demo_request demo_admin))
       ++ [Respond (reject 429
                      "Too many requests from this IP, please try again later."
                      "RATE_LIMIT_EXCEEDED")].
Proof.
  split; vm_compute; reflexivity.
Qed.

(** X2: the exemption predicate itself holds exactly of admins and of the
    two operational paths, whoever asks. *)
Lemma skipPaths_spec (p : string) :
  p ∈ ["/api/health"; "/api/docs"] <-> p = "/api/health" \/ p = "/api/docs".
Proof. rewrite !elem_of_cons, elem_of_nil. tauto. Qed.

Lemma skipRateLimit_spec (req : request) :
  skipRateLimit req = true
  <-> (exists u, user req = Some u /\ Identity.role u = Some "admin")
      \/ path req = "/api/health" \/ path req = "/api/docs".
Proof.
  unfold skipRateLimit. rewrite <- skipPaths_spec. split.
  - destruct (user req) as [u |].
    + destruct (bool_decide (Identity.role u = Some "admin")) eqn:E.
      * apply bool_decide_eq_true in E. eauto.
      * destruct (bool_decide (path req ∈ ["/api/health"; "/api/docs"])) eqn:Ep;
          [| discriminate].
        apply bool_decide_eq_true in Ep. auto.
    + destruct (bool_decide (path req ∈ ["/api/health"; "/api/docs"])) eqn:Ep;
        [| discriminate].
      apply bool_decide_eq_true in Ep. auto.
  - intros [(u & -> & Hu) | Hp].
    + rewrite bool_decide_eq_true_2 by exact Hu. reflexivity.
    + rewrite (bool_decide_eq_true_2 _ Hp).
      destruct (match user req with
                | Some u => bool_decide (Identity.role u = Some "admin")
                | None => false
                end); reflexivity.
Qed.

(** ** Token types outside the enumeration *)

Lemma getSecretByType_lookup (env : gmap string string) (type : string) :
  type ∉ ["access"; "refresh"; "reset"] ->
  getSecretByType env type =
  if bool_decide (type ∈ Object_prototype) then Ok (Obj type)
  else Throw (ConfigurationError type).
Proof.
  intros Hty. rewrite !not_elem_of_cons in Hty.
  destruct Hty as (Ha & Hr & Hs & _).
  unfold getSecretByType, get_property.
  unfold TOKEN_TYPES.ACCESS, TOKEN_TYPES.REFRESH, TOKEN_TYPES.RESET.
  rewrite !lookup_insert_ne by congruence. rewrite lookup_empty.
  destruct (bool_decide (type ∈ Object_prototype)); reflexivity.
Qed.

(** X3: for a type that is neither one of the three nor a property name
    every object inherits, the lookup fails with the configuration error
    whatever the environment holds. *)
Lemma getSecretByType_unknown (env : gmap string string) (type : string) :
  type ∉ ["access"; "refresh"; "reset"] ->
  type ∉ Object_prototype ->
  getSecretByType env type = Throw (ConfigurationError type).
Proof.
  intros Hty Hproto. rewrite (getSecretByType_lookup env type Hty).
  rewrite bool_decide_eq_false_2 by exact Hproto. reflexivity.
Qed.

(** C10 (failing input): the type [constructor] is outside the enumeration,
    but the lookup in the secrets object finds the property every object
    inherits, so no configuration error is raised: the lookup returns that
    function, signing fails inside the library for want of key material and
    verifying fails as an invalid token. *)
Theorem getSecretByType_inherited_property (env : gmap string string)
    (now : Z) (payload : claims) (token : string) :
  getSecretByType env "constructor" = Ok (Obj "constructor")
  /\ generateToken env now payload "constructor"
     = Throw (Error "secretOrPrivateKey is not valid key material")
  /\ exists m, verifyToken env now token "constructor"
               = Throw (JsonWebTokenError m).
Proof.
  assert (H : getSecretByType env "constructor" = Ok (Obj "constructor")).
  { rewrite getSecretByType_lookup; [reflexivity |].
    rewrite !not_elem_of_cons. repeat split; try discriminate.
    apply not_elem_of_nil. }
  split; [exact H | split].
  - unfold generateToken. rewrite H. reflexivity.
  - unfold verifyToken. rewrite H. simpl. unfold jwt.verify.
    destruct (String.eqb token ""); [eauto |].
    destruct (jwt.parse token) as [[c key] |]; eauto.
Qed.

(** ** The configuration error *)

Lemma ConfigurationError_message (type : string) :
  exists rest, ConfigurationError type = Error (String "J" rest).
Proof.
  unfold ConfigurationError. cbv beta iota fix delta [String.append]. eauto.
Qed.

(** C5 (counterexample): with no secret in the environment the server still
    takes requests, and the configuration error is raised by the verify and
    sign calls made while serving them: mandatory authentication turns it
    into a 401 INVALID_TOKEN answer. *)
Lemma configuration_error_surfaces_per_request :
  verifyToken ∅ 6000 (accessToken demo_tokens) "access"
  = Throw (ConfigurationError "access")
  /\ generateAuthTokens ∅ 6000 6000 demo_user
     = Throw (ConfigurationError "access")
  /\ authenticate ∅ 6000
       (with_authorization demo_request ("Bearer " +:+ accessToken demo_tokens))
     = Respond (reject 401 "Invalid or expired token." "INVALID_TOKEN").
Proof.
  repeat split; vm_compute; reflexivity.
Qed.

(** C5 (amended): the secret is looked up by every sign and verify call.
    For each of the three token types, when neither the type's own secret
    nor the shared one is set, both calls raise the configuration error at
    that call; when a secret resolves, neither call ever raises it. *)
Theorem configuration_error_at_call_time (env : gmap string string) (now : Z)
    (t : Spec.TokenType) (payload : claims) (token : string) :
  match Spec.secret env t with
  | None =>
      generateToken env now payload (Spec.name t)
      = Throw (ConfigurationError (Spec.name t))
      /\ verifyToken env now token (Spec.name t)
         = Throw (ConfigurationError (Spec.name t))
  | Some _ =>
      (forall type, generateToken env now payload (Spec.name t)
                    <> Throw (ConfigurationError type))
      /\ (forall type, verifyToken env now token (Spec.name t)
                       <> Throw (ConfigurationError type))
  end.
Proof.
  rewrite verifyToken_known. unfold generateToken.
  rewrite getSecretByType_known.
  destruct (Spec.secret env t) as [s |] eqn:Es; [| split; reflexivity].
  pose proof (secret_not_empty _ _ _ Es) as Hs.
  split; intros type; destruct (ConfigurationError_message type) as [rest ->].
  - simpl bind. unfold jwt.sign. rewrite truthy_Str, Hs. simpl.
    destruct (exp payload); [discriminate |].
    destruct (getExpiryByType_known t) as (span & -> & ->).
    discriminate.
  - rewrite (verify_Str _ _ _ Hs).
    destruct (String.eqb token ""); [discriminate |].
    destruct (jwt.parse token) as [[c key] |]; [| discriminate].
    destruct (negb (String.eqb key s)); [discriminate |].
    destruct (exp c) as [e |]; [| discriminate].
    destruct (Z.leb e (now / 1000)); discriminate.
Qed.

(** ** The credential hasher *)

Lemma genSalt_prefix (random : string) :
  String.prefix "$2" (bcrypt.genSalt 10 random) = true.
Proof. reflexivity. Qed.

Lemma hash_genSalt (s random : string) :
  bcrypt.hash s (bcrypt.genSalt 10 random)
  = Ok (bcrypt.genSalt 10 random +:+ bcrypt.digest s).
Proof. unfold bcrypt.hash. rewrite genSalt_prefix. reflexivity. Qed.

(** C9 (counterexample): for an empty and for an absent password the hasher
    does not fail; it returns the record as it was. *)
Lemma hashPassword_empty_is_no_failure :
  hashPassword (set_password (load demo_user) "") demo_random
  = Ok (set_password (load demo_user) "")
  /\ hashPassword (load demo_user) demo_random = Ok (load demo_user).
Proof. split; reflexivity. Qed.

(** What the hasher does to a record. *)
Lemma hashPassword_cases (user : Model.t) (random : string) :
  hashPassword user random =
  match User.password (Model.dataValues user) with
  | Some p =>
      if String.eqb p "" then Ok user
      else Ok (set_password user (bcrypt.genSalt 10 random +:+ bcrypt.digest p))
  | None => Ok user
  end.
Proof.
  unfold hashPassword.
  destruct (User.password (Model.dataValues user)) as [p |]; [| reflexivity].
  simpl of_option. rewrite truthy_Str.
  destruct (String.eqb p ""); [reflexivity |].
  simpl negb. cbv iota zeta. simpl default. rewrite hash_genSalt. reflexivity.
Qed.

(** C9 (amended): the credential hasher never fails.  When the plaintext
    password is empty or absent it leaves the record untouched; for a
    non-empty plaintext it always produces the hash, under a fresh salt of
    cost 10, and stores it in place of the plaintext. *)
Theorem hashPassword_total (user : Model.t) (random : string) :
  hashPassword user random =
  match Spec.nonempty (User.password (Model.dataValues user)) with
  | None => Ok user
  | Some plaintext =>
      Ok (set_password user
            (bcrypt.genSalt 10 random +:+ bcrypt.digest plaintext))
  end.
Proof.
  rewrite hashPassword_cases. unfold Spec.nonempty.
  destruct (User.password (Model.dataValues user)) as [p |]; [| reflexivity].
  destruct (String.eqb p ""); reflexivity.
Qed.

(** ** Hashing on password writes *)

Lemma length_append (a b : string) :
  String.length (a +:+ b) = (String.length a + String.length b)%nat.
Proof.
  induction a as [| c a IH]; [reflexivity |].
  change (S (String.length (a +:+ b))
          = S (String.length a + String.length b)%nat).
  rewrite IH. reflexivity.
Qed.

Lemma length_digest (s : string) :
  String.length (bcrypt.digest s) = (8 * String.length s)%nat.
Proof.
  induction s as [| c s IH]; [reflexivity |].
  change (bcrypt.digest (String c s))
    with (bcrypt.ascii_bits c +:+ bcrypt.digest s).
  rewrite length_append, IH. destruct c. simpl. lia.
Qed.

(** In the model a hash is never the password it was computed from. *)
Lemma hash_not_plaintext (s salt h : string) :
  bcrypt.hash s salt = Ok h -> h <> s.
Proof.
  unfold bcrypt.hash.
  destruct (String.prefix "$2" salt) eqn:E; [| discriminate].
  simpl. intros H. injection H as <-. intros Heq.
  apply (f_equal String.length) in Heq.
  rewrite length_append, length_digest in Heq.
  destruct salt as [| c salt]; [discriminate |]. simpl in Heq. lia.
Qed.

Lemma validate_password (isEmail : string -> bool) (u : User.t)
    (fields : list string) :
  validate isEmail u fields = Ok tt ->
  "password" ∈ fields ->
  exists p, User.password u = Some p /\ String.eqb p "" = false.
Proof.
  unfold validate. intros H Hin.
  destruct (forallb (validate_attribute isEmail u) fields) eqn:E;
    [| discriminate].
  rewrite forallb_forall in E. apply list_elem_of_In in Hin.
  specialize (E _ Hin). unfold validate_attribute in E. simpl in E.
  destruct (User.password u) as [p |]; [| discriminate].
  exists p. split; [reflexivity |].
  destruct p; [discriminate | reflexivity].
Qed.

Lemma password_write_fields (row values : User.t) (fields : list string) :
  User.password (write_fields row values fields)
  = if bool_decide ("password" ∈ fields) then User.password values
    else User.password row.
Proof. reflexivity. Qed.

Lemma write_fields_ext (row values : User.t) (fields fields' : list string) :
  (forall key, key ∈ fields <-> key ∈ fields') ->
  write_fields row values fields = write_fields row values fields'.
Proof.
  intros H. unfold write_fields.
  rewrite !(bool_decide_ext _ _ (H _)). reflexivity.
Qed.

(** A hook that leaves the instance as it was adds no field. *)
Lemma hookChanged_nil (values : User.t) (keys : list string) :
  List.filter
    (fun key =>
       negb (bool_decide (pick values keys key = pick values keys key)))
    keys = [].
Proof.
  set (f := fun key => negb (bool_decide (_ = _))).
  assert (Hf : forall key, f key = false)
    by (intros key; unfold f; rewrite bool_decide_eq_true_2; reflexivity).
  clearbody f.
  induction keys as [| key keys IH]; [reflexivity |].
  simpl. rewrite Hf. exact IH.
Qed.

(** C4: hashing happens exactly on password writes.  When the validators
    of the model accept the values of a creation (the email, an ASCII
    string, lower-cased and trimmed by its setter), the row handed to the
    database carries the hash of the supplied plaintext, never the
    plaintext; when they reject, the creation throws.  When the validators
    accept the changed attributes of an update, the update writes the hash
    of the new plaintext if the password was assigned, and leaves the stored
    hash as it was if it was not, whether or not the instance was loaded
    with its password; when they reject, the update throws.  In particular
    an update of the display name alone goes through, writes the name and
    leaves the stored hash unchanged. *)
Theorem password_hashed_exactly_on_write (isEmail : string -> bool)
    (random : string) :
  (forall values,
      ascii_only (User.email values) = true ->
      if forallb
           (validate_attribute isEmail
              (with_email values (trim (toLowerCase (User.email values)))))
           attributes
      then
        exists row plaintext h,
          create isEmail values random = Ok row
          /\ User.password values = Some plaintext
          /\ bcrypt.hash plaintext (bcrypt.genSalt 10 random) = Ok h
          /\ User.password row = Some h /\ h <> plaintext
      else exists e, create isEmail values random = Throw e)
  /\ (forall row user,
         if forallb (validate_attribute isEmail (Model.dataValues user))
              (Model.changed_keys user)
         then
           exists saved row',
             save isEmail row user random = Ok (saved, row')
             /\ if changed user "password" then
                  exists plaintext h,
                    User.password (Model.dataValues user) = Some plaintext
                    /\ bcrypt.hash plaintext (bcrypt.genSalt 10 random)
                       = Ok h
                    /\ User.password row' = Some h /\ h <> plaintext
                else User.password row' = User.password row
         else exists e, save isEmail row user random = Throw e)
  /\ (forall row loaded name,
         exists saved row',
           save isEmail row
             (set_displayName
                {| Model.dataValues := with_password row loaded;
                   Model.changed_keys := [];
                   Model.isNewRecord := false |} name) random
           = Ok (saved, row')
           /\ User.password row' = User.password row
           /\ User.displayName row' = Some name).
Proof.
  split; [| split].
  - intros values _. unfold create.
    set (values' :=
           with_email values (trim (toLowerCase (User.email values)))).
    destruct (forallb (validate_attribute isEmail values') attributes)
      eqn:Ef.
    + assert (Ev : validate isEmail values' attributes = Ok tt)
        by (unfold validate; rewrite Ef; reflexivity).
      rewrite Ev. cbn [bind].
      assert (Hin : "password" ∈ attributes)
        by (unfold attributes; rewrite !elem_of_cons; auto 10).
      destruct (validate_password _ _ _ Ev Hin) as (p & Hp & Hne).
      unfold hooks.beforeCreate. rewrite hashPassword_cases.
      simpl Model.dataValues. rewrite Hp, Hne. cbn [bind].
      destruct (negb (truthy (of_option (User.displayName _))));
        cbn [bind];
        eexists; exists p, (bcrypt.genSalt 10 random +:+ bcrypt.digest p);
        (split; [reflexivity |]); (split; [exact Hp |]);
        (split; [apply hash_genSalt |]);
        (split; [reflexivity
                | apply (hash_not_plaintext _ _ _ (hash_genSalt p random))]).
    + unfold validate. rewrite Ef. cbn [bind]. eauto.
  - intros row user. unfold save.
    destruct (forallb (validate_attribute isEmail (Model.dataValues user))
                (Model.changed_keys user)) eqn:Ef.
    + assert (Ev : validate isEmail (Model.dataValues user)
                     (Model.changed_keys user) = Ok tt)
        by (unfold validate; rewrite Ef; reflexivity).
      rewrite Ev. cbn [bind]. unfold hooks.beforeUpdate, changed.
      destruct (bool_decide ("password" ∈ Model.changed_keys user)) eqn:Ec.
      * apply bool_decide_eq_true in Ec.
        destruct (validate_password _ _ _ Ev Ec) as (p & Hp & Hne).
        rewrite hashPassword_cases, Hp, Hne. cbn [bind]. cbv zeta.
        do 2 eexists. split; [reflexivity |].
        exists p, (bcrypt.genSalt 10 random +:+ bcrypt.digest p).
        split; [reflexivity |]. split; [apply hash_genSalt |].
        split; [| apply (hash_not_plaintext _ _ _ (hash_genSalt p random))].
        rewrite password_write_fields, bool_decide_eq_true_2;
          [reflexivity |].
        apply elem_of_remove_dups, elem_of_app. left. exact Ec.
      * apply bool_decide_eq_false in Ec. cbn [bind]. cbv zeta.
        rewrite hookChanged_nil, app_nil_r.
        do 2 eexists. split; [reflexivity |].
        rewrite password_write_fields.
        rewrite bool_decide_eq_false_2; [reflexivity |].
        rewrite elem_of_remove_dups. exact Ec.
    + unfold validate. rewrite Ef. cbn [bind]. eauto.
  - intros row loaded name. unfold save, set_displayName.
    cbn [Model.changed_keys Model.dataValues Model.isNewRecord].
    set (keys := if bool_decide _ then [] else ["displayName"]).
    assert (Hkeys : forall key, key ∈ keys -> key = "displayName").
    { intros key. unfold keys.
      destruct (bool_decide _);
        [intros H; inversion H
        | rewrite elem_of_cons, elem_of_nil; tauto]. }
    assert (Hv : validate isEmail
                   (with_displayName (with_password row loaded) (Some name))
                   keys = Ok tt).
    { unfold keys. destruct (bool_decide _); reflexivity. }
    rewrite Hv. cbn [bind]. unfold hooks.beforeUpdate, changed.
    cbn [Model.changed_keys].
    rewrite bool_decide_eq_false_2
      by (intros H; apply Hkeys in H; discriminate).
    cbn [bind]. cbv zeta. cbn [Model.changed_keys Model.dataValues].
    rewrite hookChanged_nil, app_nil_r.
    do 2 eexists. split; [reflexivity |].
    split.
    + rewrite password_write_fields, bool_decide_eq_false_2; [reflexivity |].
      rewrite elem_of_remove_dups.
      intros H; apply Hkeys in H; discriminate.
    + unfold write_fields. cbn [User.displayName with_displayName].
      destruct (bool_decide ("displayName" ∈ remove_dups keys)) eqn:Ed;
        [reflexivity |].
      apply bool_decide_eq_false in Ed. rewrite elem_of_remove_dups in Ed.
      unfold keys in Ed.
      destruct (bool_decide
                  (User.displayName (with_password row loaded) = Some name))
        eqn:En.
      * apply bool_decide_eq_true in En. exact En.
      * exfalso. apply Ed. apply elem_of_cons. auto.
Qed.

(** C4 (witness): a creation of the example user that goes through. *)
Lemma password_hashed_exactly_on_write_witness :
  exists row plaintext h,
    create (fun _ => true) (with_password demo_user (Some "Password123!"))
      demo_random = Ok row
    /\ Some "Password123!" = Some plaintext
    /\ bcrypt.hash plaintext (bcrypt.genSalt 10 demo_random) = Ok h
    /\ User.password row = Some h /\ h <> plaintext.
Proof.
  exact (proj1 (password_hashed_exactly_on_write (fun _ => true) demo_random)
           (with_password demo_user (Some "Password123!")) eq_refl).
Defined.

(** C3 (witness): the tokens issued to the example user verify two seconds
    after issue. *)
Lemma generateAuthTokens_round_trip_witness :
  exists c, verifyToken demo_env 7000 (accessToken demo_tokens)
              TOKEN_TYPES.ACCESS = Ok c.
Proof.
  refine (proj2 (proj2 (generateAuthTokens_round_trip
                          demo_env 5000 5001 demo_user demo_tokens _)) 7000 _).
  - vm_compute. reflexivity.
  - vm_compute. reflexivity.
Defined.

(** ** Worked examples *)

(** Each state of the access path is reached: a fresh access token, the same
    token after its 15 minutes, a string that is no token, the refresh token
    in the place of the access token, and headers without a bearer token. *)
Example authenticate_examples :
  let bearer t := with_authorization demo_request ("Bearer " +:+ t) in
  authenticate demo_env 7000 (bearer (accessToken demo_tokens))
  = Next (set_user (bearer (accessToken demo_tokens))
            {| Identity.id := Some 7;
               Identity.email := Some "bob@example.com";
               Identity.role := Some "user" |})
  /\ authenticate demo_env 905000 (bearer (accessToken demo_tokens))
     = Respond (reject 401 "Token has expired. Please refresh your token."
                  "TOKEN_EXPIRED")
  /\ optionalAuth demo_env 905000 (bearer (accessToken demo_tokens))
     = Next (bearer (accessToken demo_tokens))
  /\ authenticate demo_env 7000 (bearer "not.a.token")
     = Respond (reject 401 "Invalid token." "MALFORMED_TOKEN")
  /\ authenticate demo_env 7000 (bearer (refreshToken demo_tokens))
     = Respond (reject 401 "Invalid token type." "INVALID_TOKEN_TYPE")
  /\ authenticate demo_env 7000 demo_request
     = Respond (reject 401 "Access denied. No token provided." "NO_TOKEN")
  /\ authenticate demo_env 7000 (with_authorization demo_request "Basic Ym9iOmJvYg==")
     = Respond (reject 401 "Access denied. No token provided." "NO_TOKEN").
Proof.
  cbv zeta. repeat split; vm_compute; reflexivity.
Qed.

(** The states of the refresh path: a fresh refresh token, the same token
    after its 7 days, and a body without a token. *)
Example verifyRefreshToken_examples :
  (exists c,
      verifyRefreshToken demo_env 7000
        (with_refreshToken demo_request (refreshToken demo_tokens))
      = Next (set_refreshTokenData
                (with_refreshToken demo_request (refreshToken demo_tokens)) c)
      /\ subject c = (Some 7, Some "bob@example.com", Some "user")
      /\ tokenType c = Some "refresh")
  /\ verifyRefreshToken demo_env (8 * 24 * 60 * 60 * 1000)
       (with_refreshToken demo_request (refreshToken demo_tokens))
     = Respond (reject 401 "Refresh token has expired. Please log in again."
                  "REFRESH_TOKEN_EXPIRED")
  /\ verifyRefreshToken demo_env 7000 demo_request
     = Respond (reject 400 "Refresh token is required." "NO_REFRESH_TOKEN").
Proof.
  split; [| split; vm_compute; reflexivity].
  eexists. split; [vm_compute; reflexivity | split; reflexivity].
Qed.

(** A creation and two updates of the example user: the stored password is
    the hash of the plaintext; after a change of the display name it is the
    hash that was stored before. *)
Example save_examples :
  create (fun _ => true)
    (with_password demo_user (Some "Password123!")) demo_random
  = Ok (with_password demo_user
          (Some (bcrypt.genSalt 10 demo_random +:+ bcrypt.digest "Password123!")))
  /\ snd <$> (match save (fun _ => true) demo_user
                      (set_displayName (load demo_user) "Robert") demo_random
              with Ok r => Some r | Throw _ => None end)
     = Some (with_displayName demo_user (Some "Robert"))
  /\ snd <$> (match save (fun _ => true) demo_user
                      (set_password (load demo_user) "N3wPassword!") demo_random
              with Ok r => Some r | Throw _ => None end)
     = Some (with_password demo_user
               (Some (bcrypt.genSalt 10 demo_random +:+ bcrypt.digest "N3wPassword!"))).
Proof.
  repeat split; vm_compute; reflexivity.
Qed.

(** ** Further properties of the token codec and the limiter *)

(** [verifyToken] checks the signature and the expiry only: a token signed
    with the secret of the expected type and not yet expired verifies and
    its payload comes back unchanged, whatever its [tokenType] claim says. *)
Lemma verifyToken_signed (env : gmap string string) (now : Z)
    (t : Spec.TokenType) (secret : string) (c : claims) (e : Z) :
  Spec.secret env t = Some secret ->
  exp c = Some e ->
  now / 1000 < e ->
  verifyToken env now (jwt.render c secret) (Spec.name t) = Ok c.
Proof.
  intros Hs He Hnow. rewrite verifyToken_known, Hs.
  rewrite (verify_render _ _ _ _ (secret_not_empty _ _ _ Hs)).
  rewrite String.eqb_refl, He. simpl.
  destruct (Z.leb e (now / 1000)) eqn:E; [apply Z.leb_le in E; lia | reflexivity].
Qed.

(** X1: when the refresh and the access secret are the same, an access
    token passes the signature and expiry checks of the refresh path, and
    the refresh entry point turns it away for its type. *)
Theorem access_token_is_not_a_refresh_token (env : gmap string string)
    (now_access now_refresh now : Z) (user : User.t) (tokens : AuthTokens)
    (req : request) :
  generateAuthTokens env now_access now_refresh user = Ok tokens ->
  Spec.secret env Spec.refresh = Spec.secret env Spec.access ->
  now / 1000 < now_access / 1000 + 15 * 60 ->
  (exists c, verifyToken env now (accessToken tokens) TOKEN_TYPES.REFRESH = Ok c
             /\ tokenType c = Some TOKEN_TYPES.ACCESS)
  /\ verifyRefreshToken env now (with_refreshToken req (accessToken tokens))
     = Respond (reject 401 "Invalid refresh token type." "INVALID_REFRESH_TOKEN").
Proof.
  unfold generateAuthTokens.
  change TOKEN_TYPES.ACCESS with (Spec.name Spec.access).
  change TOKEN_TYPES.REFRESH with (Spec.name Spec.refresh).
  rewrite !generateToken_known by reflexivity.
  intros H Hshared Hnow. rewrite Hshared in *.
  destruct (Spec.secret env Spec.access) as [s |] eqn:Hs; [| discriminate].
  simpl in H. injection H as <-. simpl accessToken.
  assert (Hv : verifyToken env now
                 (jwt.render (issued now_access
                    {| userId := Some (User.id user);
                       email := Some (User.email user);
                       role := Some (User.role user);
                       tokenType := None; iat := None; exp := None |}
                    Spec.access) s)
                 (Spec.name Spec.refresh)
               = Ok (issued now_access
                    {| userId := Some (User.id user);
                       email := Some (User.email user);
                       role := Some (User.role user);
                       tokenType := None; iat := None; exp := None |}
                    Spec.access)).
  { apply (verifyToken_signed env now Spec.refresh s _
             (now_access / 1000 + 15 * 60)); auto. }
  split; [eexists; split; [exact Hv | reflexivity] |].
  unfold verifyRefreshToken. simpl body_refreshToken. simpl of_option.
  rewrite truthy_Str, render_not_empty. simpl negb. cbv iota zeta.
  simpl default. change TOKEN_TYPES.REFRESH with (Spec.name Spec.refresh).
  rewrite Hv. reflexivity.
Qed.

(** X1 (witness): the example user's access token, two seconds old. *)
Lemma access_token_is_not_a_refresh_token_witness :
  (exists c, verifyToken demo_env 7000 (accessToken demo_tokens)
               TOKEN_TYPES.REFRESH = Ok c
             /\ tokenType c = Some TOKEN_TYPES.ACCESS)
  /\ verifyRefreshToken demo_env 7000
       (with_refreshToken demo_request (accessToken demo_tokens))
     = Respond (reject 401 "Invalid refresh token type." "INVALID_REFRESH_TOKEN").
Proof.
  apply (access_token_is_not_a_refresh_token demo_env 5000 5001 7000 demo_user).
  - vm_compute. reflexivity.
  - reflexivity.
  - vm_compute. reflexivity.
Defined.

(** X3 (witness): the type [session]. *)
Lemma getSecretByType_unknown_witness :
  getSecretByType demo_env "session" = Throw (ConfigurationError "session").
Proof.
  apply getSecretByType_unknown.
  - rewrite !not_elem_of_cons. repeat split; try discriminate.
    apply not_elem_of_nil.
  - unfold Object_prototype. rewrite !not_elem_of_cons.
    repeat split; try discriminate. apply not_elem_of_nil.
Defined.

(** X4: a limiter created without [skip]: once a key has [max] hits in the
    running window the next request of that key is answered with 429 and the
    configured message, whoever sends it; the first request at or after the
    reset time opens a new window and goes through. *)
Theorem limiter_blocks_until_reset (o : rateLimit.Options) (now : Z)
    (store : gmap string (Z * Z)) (req : request) (hits resetTime : Z) :
  rateLimit.skip o = None ->
  0 < rateLimit.max o ->
  store !! rateLimit.key_of o req = Some (hits, resetTime) ->
  rateLimit.max o <= hits ->
  fst (rateLimit.handle o now store req)
  = if Z.ltb now resetTime
    then Respond (reject 429 (fst (rateLimit.message o))
                    (snd (rateLimit.message o)))
    else Next req.
Proof.
  intros Hskip Hmax Hkey Hhits.
  unfold rateLimit.handle, rateLimit.skipped, rateLimit.increment.
  rewrite Hskip, Hkey.
  destruct (Z.ltb_spec now resetTime).
  - destruct (Z.ltb_spec (rateLimit.max o) (hits + 1)); [reflexivity | lia].
  - destruct (Z.ltb_spec (rateLimit.max o) 1); [lia | reflexivity].
Qed.

(** X4 (witness): the general limiter one millisecond before and at the
    reset time of a full window. *)
Lemma limiter_blocks_until_reset_witness :
  fst (rateLimit.handle generalLimiter 899999
         {[ "203.0.113.9" := (100, 900000) ]} demo_request)
  = Respond (reject 429
               "Too many requests from this IP, please try again later."
               "RATE_LIMIT_EXCEEDED")
  /\ fst (rateLimit.handle generalLimiter 900000
            {[ "203.0.113.9" := (100, 900000) ]} demo_request)
     = Next demo_request.
Proof.
  split.
  - apply (limiter_blocks_until_reset generalLimiter 899999
             {[ "203.0.113.9" := (100, 900000) ]} demo_request 100 900000).
    + reflexivity.
    + reflexivity.
    + vm_compute. reflexivity.
    + vm_compute. discriminate.
  - apply (limiter_blocks_until_reset generalLimiter 900000
             {[ "203.0.113.9" := (100, 900000) ]} demo_request 100 900000).
    + reflexivity.
    + reflexivity.
    + vm_compute. reflexivity.
    + vm_compute. discriminate.
Defined.

(** ** The life of an issued token *)

(** A token that [generateToken] returned for a known type is the wire form
    of the issued payload under the type's secret, and the payload handed in
    had no [exp] of its own. *)
Lemma generateToken_Ok (env : gmap string string) (now : Z) (payload : claims)
    (t : Spec.TokenType) (token : string) :
  generateToken env now payload (Spec.name t) = Ok token ->
  exists s, Spec.secret env t = Some s
            /\ exp payload = None
            /\ token = jwt.render (issued now payload t) s.
Proof.
  destruct (exp payload) as [e |] eqn:He.
  - unfold generateToken. rewrite getSecretByType_known.
    destruct (Spec.secret env t) as [s |] eqn:Es; [| discriminate].
    simpl bind. unfold jwt.sign.
    rewrite truthy_Str, (secret_not_empty _ _ _ Es). simpl. rewrite He.
    discriminate.
  - rewrite generateToken_known by exact He.
    destruct (Spec.secret env t) as [s |]; [| discriminate].
    intros H. injection H as <-. eauto.
Qed.

Lemma verifyToken_issued (env : gmap string string) (now later : Z)
    (payload : claims) (t : Spec.TokenType) (s : string) :
  Spec.secret env t = Some s ->
  verifyToken env later (jwt.render (issued now payload t) s) (Spec.name t)
  = if Z.ltb (later / 1000) (now / 1000 + Spec.lifetime t)
    then Ok (issued now payload t)
    else Throw TokenExpiredError.
Proof.
  intros Hs. rewrite verifyToken_known, Hs.
  rewrite (verify_render _ _ _ _ (secret_not_empty _ _ _ Hs)).
  rewrite String.eqb_refl. simpl.
  destruct (Z.leb_spec (now / 1000 + Spec.lifetime t) (later / 1000));
    destruct (Z.ltb_spec (later / 1000) (now / 1000 + Spec.lifetime t));
    try reflexivity; lia.
Qed.

(** X5: a token of any of the three types verifies, with its own type, at
    every clock reading whose second lies before the second of issue plus
    the type's lifetime (15 minutes, 7 days, 1 hour) and it returns the
    payload that was signed; from that second on the verification throws
    TokenExpiredError. *)
Theorem token_expiry_boundary (env : gmap string string) (now later : Z)
    (payload : claims) (t : Spec.TokenType) (token : string) :
  generateToken env now payload (Spec.name t) = Ok token ->
  verifyToken env later token (Spec.name t)
  = if Z.ltb (later / 1000) (now / 1000 + Spec.lifetime t)
    then Ok {| userId := userId payload; email := email payload;
               role := role payload; tokenType := Some (Spec.name t);
               iat := Some (now / 1000);
               exp := Some (now / 1000 + Spec.lifetime t) |}
    else Throw TokenExpiredError.
Proof.
  intros H. apply generateToken_Ok in H. destruct H as (s & Hs & _ & ->).
  apply (verifyToken_issued env now later payload t s Hs).
Qed.

(** X5 (witness): the example user's refresh token one second before and at
    its expiry, seven days after second 5. *)
Lemma token_expiry_boundary_witness :
  (exists c, verifyToken demo_env 604804999 (refreshToken demo_tokens) "refresh"
             = Ok c)
  /\ verifyToken demo_env 604805000 (refreshToken demo_tokens) "refresh"
     = Throw TokenExpiredError.
Proof.
  assert (H : generateToken demo_env 5001
                {| userId := Some 7; email := Some "bob@example.com";
                   role := Some "user"; tokenType := None; iat := None;
                   exp := None |} (Spec.name Spec.refresh)
              = Ok (refreshToken demo_tokens)) by (vm_compute; reflexivity).
  split.
  - eexists.
    exact (token_expiry_boundary demo_env 5001 604804999 _ Spec.refresh _ H).
  - exact (token_expiry_boundary demo_env 5001 604805000 _ Spec.refresh _ H).
Defined.

(** X7: the expiry helpers read a token without verifying it.  For an
    issued token [getTokenExpiry] is the second of issue plus the lifetime,
    and [isTokenExpired] holds exactly when the clock's second is past that
    second: at the expiry second itself it still says no although
    [verifyToken] already refuses the token.  Whenever [isTokenExpired]
    holds of an issued token, [verifyToken] throws TokenExpiredError. *)
Theorem expiry_helpers_on_issued_token (env : gmap string string)
    (now later : Z) (payload : claims) (t : Spec.TokenType) (token : string) :
  generateToken env now payload (Spec.name t) = Ok token ->
  0 <= now ->
  getTokenExpiry token = Some (now / 1000 + Spec.lifetime t)
  /\ isTokenExpired later token
     = Z.ltb (now / 1000 + Spec.lifetime t) (later / 1000)
  /\ (isTokenExpired later token = true ->
      verifyToken env later token (Spec.name t) = Throw TokenExpiredError)
  /\ (later / 1000 = now / 1000 + Spec.lifetime t ->
      isTokenExpired later token = false
      /\ verifyToken env later token (Spec.name t) = Throw TokenExpiredError).
Proof.
  intros H Hnow. apply generateToken_Ok in H.
  destruct H as (s & Hs & _ & ->).
  assert (Hpos : 0 < now / 1000 + Spec.lifetime t).
  { assert (0 <= now / 1000) by (apply Z.div_pos; lia).
    destruct t; simpl; lia. }
  assert (Hexp : isTokenExpired later (jwt.render (issued now payload t) s)
                 = Z.ltb (now / 1000 + Spec.lifetime t) (later / 1000)).
  { unfold isTokenExpired, decodeToken, jwt.decode. rewrite parse_render.
    simpl. destruct (Z.eqb_spec (now / 1000 + Spec.lifetime t) 0); [lia |].
    reflexivity. }
  rewrite Hexp, (verifyToken_issued env now later payload t s Hs).
  split; [| split; [reflexivity | split]].
  - unfold getTokenExpiry, decodeToken, jwt.decode. rewrite parse_render.
    simpl. destruct (Z.eqb_spec (now / 1000 + Spec.lifetime t) 0); [lia |].
    reflexivity.
  - intros Hlt. apply Z.ltb_lt in Hlt.
    destruct (Z.ltb_spec (later / 1000) (now / 1000 + Spec.lifetime t));
      [lia | reflexivity].
  - intros Heq. rewrite Heq. rewrite Z.ltb_irrefl. auto.
Qed.

(** X7 (witness): the example user's access token at its expiry second. *)
Lemma expiry_helpers_on_issued_token_witness :
  getTokenExpiry (accessToken demo_tokens) = Some 905
  /\ isTokenExpired 905000 (accessToken demo_tokens) = false
  /\ verifyToken demo_env 905000 (accessToken demo_tokens) "access"
     = Throw TokenExpiredError.
Proof.
  assert (H : generateToken demo_env 5000
                {| userId := Some 7; email := Some "bob@example.com";
                   role := Some "user"; tokenType := None; iat := None;
                   exp := None |} (Spec.name Spec.access)
              = Ok (accessToken demo_tokens)) by (vm_compute; reflexivity).
  pose proof (expiry_helpers_on_issued_token demo_env 5000 905000 _
                Spec.access _ H ltac:(lia)) as (H1 & _ & _ & H4).
  split; [exact H1 |]. apply H4. reflexivity.
Defined.

(** ** From login to a guarded route *)

Lemma generateAuthTokens_Ok (env : gmap string string)
    (now_access now_refresh : Z) (user : User.t) (tokens : AuthTokens) :
  generateAuthTokens env now_access now_refresh user = Ok tokens ->
  let payload :=
    {| userId := Some (User.id user); email := Some (User.email user);
       role := Some (User.role user);
       tokenType := None; iat := None; exp := None |} in
  generateToken env now_access payload (Spec.name Spec.access)
  = Ok (accessToken tokens)
  /\ generateToken env now_refresh payload (Spec.name Spec.refresh)
     = Ok (refreshToken tokens).
Proof.
  unfold generateAuthTokens.
  change TOKEN_TYPES.ACCESS with (Spec.name Spec.access).
  change TOKEN_TYPES.REFRESH with (Spec.name Spec.refresh).
  destruct (generateToken env now_access _ (Spec.name Spec.access))
    as [a |]; [| discriminate].
  destruct (generateToken env now_refresh _ (Spec.name Spec.refresh))
    as [r |]; [| discriminate].
  simpl. intros H. injection H as <-. auto.
Qed.

Lemma until_space_cons (c : ascii) (s : string) :
  Ascii.eqb c " " = false ->
  Spec.until_space (String c s) = String c (Spec.until_space s).
Proof. intros H. simpl. rewrite H. reflexivity. Qed.

Lemma until_space_bits (p : positive) :
  Spec.until_space (jwt.bits_of_pos p) = jwt.bits_of_pos p.
Proof.
  induction p as [q IH | q IH |]; simpl; try rewrite IH; reflexivity.
Qed.

(** The wire form of a token holds no space: a bearer header carries it
    whole. *)
Lemma until_space_render (c : claims) (key : string) :
  Spec.until_space (jwt.render c key) = jwt.render c key.
Proof.
  unfold jwt.render, jwt.header.
  cbv beta iota fix delta [String.append].
  repeat (rewrite until_space_cons by reflexivity).
  rewrite until_space_bits. reflexivity.
Qed.

Lemma authenticate_bearer (env : gmap string string) (now : Z) (req : request)
    (token : string) :
  Spec.until_space token = token ->
  authenticate env now (with_authorization req ("Bearer " +:+ token))
  = match verifyToken env now token TOKEN_TYPES.ACCESS with
    | Ok decoded =>
        if bool_decide (tokenType decoded = Some TOKEN_TYPES.ACCESS)
        then Next (set_user (with_authorization req ("Bearer " +:+ token))
                     (identity_of decoded))
        else Respond (reject 401 "Invalid token type." "INVALID_TOKEN_TYPE")
    | Throw error =>
        if String.eqb (error_name error) "TokenExpiredError" then
          Respond (reject 401 "Token has expired. Please refresh your token."
                     "TOKEN_EXPIRED")
        else if String.eqb (error_name error) "JsonWebTokenError" then
          Respond (reject 401 "Invalid token." "MALFORMED_TOKEN")
        else Respond (reject 401 "Invalid or expired token." "INVALID_TOKEN")
    end.
Proof.
  intros Htoken. unfold authenticate.
  change (authorization (with_authorization req ("Bearer " +:+ token)))
    with (Some ("Bearer " +:+ token)).
  assert (Hb : has_bearer (Some ("Bearer " +:+ token)) = true).
  { unfold has_bearer. simpl of_option. simpl default.
    rewrite prefix_strip, strip_app. reflexivity. }
  rewrite Hb. simpl negb. cbv iota zeta. simpl default.
  rewrite bearer_token_app, Htoken.
  destruct (verifyToken env now token TOKEN_TYPES.ACCESS) as [decoded |];
    simpl; [| reflexivity].
  destruct (bool_decide (tokenType decoded = Some TOKEN_TYPES.ACCESS));
    reflexivity.
Qed.

(** X8: from login to a role-gated route.  The access token that
    [generateAuthTokens] issued to a user, sent as a bearer token to a
    route behind [authenticate] and [authorize(roles)], is answered 401
    TOKEN_EXPIRED from 15 minutes after issue; before that the request goes
    through with the identity the user had at issue if the role the user
    had at issue is among the roles, and is answered 403 with the required
    roles and that role otherwise. *)
Theorem guarded_route_after_login (env : gmap string string)
    (now_access now_refresh now : Z) (user : User.t) (tokens : AuthTokens)
    (req : request) (allowedRoles : list string) :
  generateAuthTokens env now_access now_refresh user = Ok tokens ->
  guarded allowedRoles env now
    (with_authorization req ("Bearer " +:+ accessToken tokens))
  = if Z.ltb (now / 1000) (now_access / 1000 + 15 * 60) then
      if bool_decide (User.role user ∈ allowedRoles) then
        Next (set_user
                (with_authorization req ("Bearer " +:+ accessToken tokens))
                {| Identity.id := Some (User.id user);
                   Identity.email := Some (User.email user);
                   Identity.role := Some (User.role user) |})
      else
        Respond
          {| status := 403; success := false;
             message := "You do not have permission to perform this action.";
             code := Some "INSUFFICIENT_PERMISSIONS";
             requiredRoles := Some allowedRoles;
             userRole := Some (User.role user) |}
    else
      Respond (reject 401 "Token has expired. Please refresh your token."
                 "TOKEN_EXPIRED").
Proof.
  intros H. apply generateAuthTokens_Ok in H. destruct H as [Ha _].
  apply generateToken_Ok in Ha. destruct Ha as (s & Hs & _ & Ha).
  unfold guarded. rewrite Ha.
  rewrite authenticate_bearer by apply until_space_render.
  change TOKEN_TYPES.ACCESS with (Spec.name Spec.access).
  rewrite (verifyToken_issued env now_access now _ Spec.access s Hs).
  change (Spec.lifetime Spec.access) with (15 * 60).
  destruct (Z.ltb (now / 1000) (now_access / 1000 + 15 * 60));
    [| reflexivity].
  simpl. unfold authorize. simpl.
  rewrite (bool_decide_ext (Some (User.role user) ∈ Some <$> allowedRoles)
             (User.role user ∈ allowedRoles))
    by apply (list_elem_of_fmap_inj Some).
  destruct (bool_decide (User.role user ∈ allowedRoles)); reflexivity.
Qed.

(** X8 (witness): the example user, of role user, at the admin route two
    seconds after login. *)
Lemma guarded_route_after_login_witness :
  guarded ["admin"] demo_env 7000
    (with_authorization demo_request ("Bearer " +:+ accessToken demo_tokens))
  = Respond
      {| status := 403; success := false;
         message := "You do not have permission to perform this action.";
         code := Some "INSUFFICIENT_PERMISSIONS";
         requiredRoles := Some ["admin"];
         userRole := Some "user" |}.
Proof.
  rewrite (guarded_route_after_login demo_env 5000 5001 7000 demo_user
             demo_tokens demo_request ["admin"]).
  - reflexivity.
  - vm_compute. reflexivity.
Defined.

(** ** Password reset *)

Lemma len_not_empty (lo hi : nat) (s : string) :
  (0 < lo)%nat -> len lo hi s = true -> String.eqb s "" = false.
Proof.
  unfold len. intros Hlo H. destruct s; [| reflexivity].
  simpl in H. destruct lo; [lia | discriminate].
Qed.

(** Saving an instance on which only the password was assigned: the new
    plaintext is validated, hashed and written; no other column is. *)
Lemma save_set_password (isEmail : string -> bool) (row : User.t)
    (user : Model.t) (p random : string) :
  Model.changed_keys user = [] ->
  User.password (Model.dataValues user) <> Some p ->
  save isEmail row (set_password user p) random
  = if len 8 100 p then
      Ok ({| Model.dataValues :=
               with_password (Model.dataValues user)
                 (Some (bcrypt.genSalt 10 random +:+ bcrypt.digest p));
             Model.changed_keys := [];
             Model.isNewRecord := false |},
          with_password row
            (Some (bcrypt.genSalt 10 random +:+ bcrypt.digest p)))
    else Throw (SequelizeValidationError "Validation error").
Proof.
  intros Hkeys Hne. unfold save.
  assert (Hk : Model.changed_keys (set_password user p) = ["password"]).
  { unfold set_password. cbn [Model.changed_keys].
    rewrite Hkeys, (bool_decide_eq_false_2 _ Hne). reflexivity. }
  rewrite Hk.
  change (Model.dataValues (set_password user p))
    with (with_password (Model.dataValues user) (Some p)).
  unfold validate. simpl forallb.
  change (validate_attribute isEmail
            (with_password (Model.dataValues user) (Some p)) "password")
    with (len 8 100 p).
  destruct (len 8 100 p) eqn:Hlen; [| reflexivity].
  cbn [bind andb]. unfold hooks.beforeUpdate, changed. rewrite Hk.
  rewrite bool_decide_eq_true_2 by (apply elem_of_cons; auto).
  rewrite hashPassword_cases.
  change (User.password (Model.dataValues (set_password user p)))
    with (Some p).
  cbv iota. rewrite (len_not_empty 8 100 p ltac:(lia) Hlen).
  cbn [bind]. cbv zeta.
  set (h := bcrypt.genSalt 10 random +:+ bcrypt.digest p).
  assert (Hk' : forall key,
             key ∈ Model.changed_keys (set_password (set_password user p) h)
             -> key = "password").
  { intros key. unfold set_password at 1. cbn [Model.changed_keys].
    rewrite Hk. destruct (bool_decide _);
      rewrite ?elem_of_cons, elem_of_nil; tauto. }
  rewrite (write_fields_ext _ _ _ ["password"]).
  - destruct row, user as [[] ? ?]; reflexivity.
  - intros key. rewrite elem_of_remove_dups, elem_of_app.
    split; [| auto].
    intros [H | H]; [exact H |].
    apply list_elem_of_In, filter_In in H. destruct H as [H _].
    apply list_elem_of_In, Hk' in H. subst key.
    apply elem_of_cons. auto.
Qed.

Lemma lower_idempotent (c : ascii) : lower (lower c) = lower c.
Proof. destruct c as [[] [] [] [] [] [] [] []]; reflexivity. Qed.

Lemma toLowerCase_idempotent (s : string) :
  toLowerCase (toLowerCase s) = toLowerCase s.
Proof.
  induction s as [| c s IH]; simpl; [reflexivity |].
  rewrite lower_idempotent, IH. reflexivity.
Qed.

Lemma findOne_by_email_Some (table : list User.t) (email : string)
    (row : User.t) :
  findOne_by_email table email = Some row ->
  row ∈ table /\ User.email row = email.
Proof.
  unfold findOne_by_email. intros H. apply find_some in H.
  destruct H as [Hin He]. apply String.eqb_eq in He.
  split; [apply list_elem_of_In; exact Hin | exact He].
Qed.

(** What [resetPassword] does once the token has verified. *)
Lemma resetPassword_verified (isEmail : string -> bool)
    (env : gmap string string) (now : Z) (table : list User.t)
    (token password random : string) (decoded : claims) (e : string) :
  verifyToken env now token TOKEN_TYPES.RESET = Ok decoded ->
  email decoded = Some e ->
  resetPassword isEmail env now table token password random
  = match findOne_by_email table (toLowerCase e) with
    | None => (reject 400 "Invalid reset token" "INVALID_RESET_TOKEN", table)
    | Some row =>
        if negb (User.isActive row) then
          (reject 403 "Account is deactivated" "ACCOUNT_DEACTIVATED", table)
        else if len 8 100 password then
          (accept "Password reset successful. You can now log in with your new password.",
           store_row table
             (with_password row
                (Some (bcrypt.genSalt 10 random +:+ bcrypt.digest password))))
        else
          (reject 400 "Invalid or expired reset token" "INVALID_RESET_TOKEN",
           table)
    end.
Proof.
  intros Hv He. unfold resetPassword. rewrite Hv. simpl bind. rewrite He.
  simpl bind.
  destruct (findOne_by_email table (toLowerCase e)) as [row |]; [| reflexivity].
  destruct (negb (User.isActive row)); [reflexivity |].
  rewrite save_set_password by (simpl; congruence).
  destruct (len 8 100 password); reflexivity.
Qed.

Lemma unique_id (table : list User.t) (r row : User.t) :
  NoDup (map User.id table) ->
  In r table -> In row table -> User.id r = User.id row -> r = row.
Proof.
  induction table as [| x table IH]; simpl; [contradiction |].
  intros Hnd Hr Hrow Hid. apply NoDup_cons in Hnd.
  destruct Hnd as [Hx Hnd].
  destruct Hr as [-> | Hr], Hrow as [-> | Hrow].
  - reflexivity.
  - exfalso. apply Hx. rewrite Hid. apply list_elem_of_In, in_map.
    exact Hrow.
  - exfalso. apply Hx. rewrite <- Hid. apply list_elem_of_In, in_map.
    exact Hr.
  - apply IH; assumption.
Qed.

Lemma store_row_profiles (table : list User.t) (row : User.t)
    (p : option string) :
  NoDup (map User.id table) ->
  In row table ->
  map getPublicProfile (store_row table (with_password row p))
  = map getPublicProfile table.
Proof.
  intros Hnd Hrow. unfold store_row. rewrite map_map.
  apply map_ext_in. intros r Hr. simpl.
  destruct (Z.eqb_spec (User.id r) (User.id row)) as [Hid | _];
    [| reflexivity].
  rewrite (unique_id table r row Hnd Hr Hrow Hid). reflexivity.
Qed.

(** X9: whatever the token, the password-reset handler changes nothing but
    stored passwords: every row keeps its id, username, email, display name,
    role and flags (ids being unique), and unless the answer is the 200 the
    table is left exactly as it was. *)
Theorem resetPassword_changes_passwords_only (isEmail : string -> bool)
    (env : gmap string string) (now : Z) (table : list User.t)
    (token password random : string) :
  NoDup (map User.id table) ->
  (status (fst (resetPassword isEmail env now table token password random))
   <> 200 ->
   snd (resetPassword isEmail env now table token password random) = table)
  /\ map getPublicProfile
       (snd (resetPassword isEmail env now table token password random))
     = map getPublicProfile table.
Proof.
  intros Hnd.
  destruct (verifyToken env now token TOKEN_TYPES.RESET) as [decoded | err]
    eqn:Hv.
  - destruct (email decoded) as [e |] eqn:He.
    + rewrite (resetPassword_verified _ _ _ _ _ _ _ _ _ Hv He).
      destruct (findOne_by_email table (toLowerCase e)) as [row |] eqn:Hf;
        [| split; reflexivity].
      destruct (negb (User.isActive row)); [split; reflexivity |].
      destruct (len 8 100 password); [| split; reflexivity].
      split; [simpl; congruence |]. simpl snd.
      apply store_row_profiles; [exact Hnd |].
      apply findOne_by_email_Some in Hf. apply list_elem_of_In, Hf.
    + unfold resetPassword. rewrite Hv. simpl bind. rewrite He. simpl.
      split; reflexivity.
  - unfold resetPassword. rewrite Hv. simpl.
    destruct (String.eqb (error_name err) "TokenExpiredError");
      split; reflexivity.
Qed.

(** X9 (witness): the example table and a string that is no token. *)
Lemma resetPassword_changes_passwords_only_witness :
  (status (fst (resetPassword (fun _ => true) demo_env 7000 [demo_user]
                  "not.a.token" "N3wPassword!" demo_random)) <> 200 ->
   snd (resetPassword (fun _ => true) demo_env 7000 [demo_user]
          "not.a.token" "N3wPassword!" demo_random) = [demo_user])
  /\ map getPublicProfile
       (snd (resetPassword (fun _ => true) demo_env 7000 [demo_user]
               "not.a.token" "N3wPassword!" demo_random))
     = map getPublicProfile [demo_user].
Proof.
  apply (resetPassword_changes_passwords_only (fun _ => true) demo_env 7000
           [demo_user] "not.a.token" "N3wPassword!" demo_random).
  apply (bool_decide_unpack _). vm_compute. exact I.
Defined.

(** ** Password reset requests *)

Lemma forgotPassword_found (env : gmap string string) (now : Z)
    (table : list User.t) (email s : string) (user : User.t) :
  Spec.secret env Spec.reset = Some s ->
  findOne_by_email table (toLowerCase email) = Some user ->
  User.isActive user = true ->
  let resetToken :=
    jwt.render
      (issued now {| userId := None; email := Some (User.email user);
                     role := None; tokenType := None; iat := None;
                     exp := None |} Spec.reset) s in
  let resetLink :=
    template (getenv env "CLIENT_URL")
    +:+ "/reset-password?token=" +:+ resetToken in
  forgotPassword env now table email
  = {| forgot_response :=
         accept "If an account exists with this email, you will receive a password reset link.";
       forgot_debug :=
         if bool_decide (getenv env "NODE_ENV" = Str "development")
         then Some (resetToken, resetLink) else None;
       forgot_log :=
         Some ("Password reset link for " +:+ User.email user
               +:+ ": " +:+ resetLink) |}.
Proof.
  intros Hs Hf Ha. unfold forgotPassword. rewrite Hf, Ha. simpl negb.
  cbv iota. unfold generateResetToken.
  change TOKEN_TYPES.RESET with (Spec.name Spec.reset).
  rewrite generateToken_known by reflexivity. rewrite Hs. reflexivity.
Qed.

(** X10: the reset link works.  When the reset secret resolves and the
    email, an ASCII string, belongs lower-cased to an active account,
    [forgotPassword] prints a link whose token, presented to
    [resetPassword] within the hour together with a new password of 8 to
    100 characters, is answered 200 and puts the hash of the new password in
    that account's row. *)
Theorem forgotPassword_then_resetPassword (isEmail : string -> bool)
    (env : gmap string string) (now later : Z) (table : list User.t)
    (email s password random : string) (user : User.t) :
  Spec.secret env Spec.reset = Some s ->
  ascii_only email = true ->
  findOne_by_email table (toLowerCase email) = Some user ->
  User.isActive user = true ->
  later / 1000 < now / 1000 + 60 * 60 ->
  len 8 100 password = true ->
  exists token,
    forgot_log (forgotPassword env now table email)
    = Some ("Password reset link for " +:+ User.email user +:+ ": "
            +:+ template (getenv env "CLIENT_URL")
            +:+ "/reset-password?token=" +:+ token)
    /\ resetPassword isEmail env later table token password random
       = (accept "Password reset successful. You can now log in with your new password.",
          store_row table
            (with_password user
               (Some (bcrypt.genSalt 10 random +:+ bcrypt.digest password)))).
Proof.
  intros Hs _ Hf Ha Hlater Hlen.
  rewrite (forgotPassword_found env now table email s user Hs Hf Ha).
  eexists. split; [reflexivity |].
  rewrite (resetPassword_verified isEmail env later table _ password random
             (issued now {| userId := None; email := Some (User.email user);
                            role := None; tokenType := None; iat := None;
                            exp := None |} Spec.reset)
             (User.email user)).
  - apply findOne_by_email_Some in Hf as Hf'. destruct Hf' as [_ He].
    rewrite He, toLowerCase_idempotent, Hf, Ha, Hlen.
    reflexivity.
  - change TOKEN_TYPES.RESET with (Spec.name Spec.reset).
    rewrite (verifyToken_issued env now later _ Spec.reset s Hs).
    change (Spec.lifetime Spec.reset) with (60 * 60).
    destruct (Z.ltb_spec (later / 1000) (now / 1000 + 60 * 60)); [| lia].
    reflexivity.
  - reflexivity.
Qed.

(** X10 (witness): the example user asks for a link at second 5 and uses
    it two seconds later. *)
Lemma forgotPassword_then_resetPassword_witness :
  exists token,
    forgot_log (forgotPassword demo_env 5000 [demo_user] "Bob@Example.com")
    = Some ("Password reset link for " +:+ User.email demo_user +:+ ": "
            +:+ template (getenv demo_env "CLIENT_URL")
            +:+ "/reset-password?token=" +:+ token)
    /\ resetPassword (fun _ => true) demo_env 7000 [demo_user] token
         "N3wPassword!" demo_random
       = (accept "Password reset successful. You can now log in with your new password.",
          store_row [demo_user]
            (with_password demo_user
               (Some (bcrypt.genSalt 10 demo_random
                      +:+ bcrypt.digest "N3wPassword!")))).
Proof.
  apply (forgotPassword_then_resetPassword (fun _ => true) demo_env 5000 7000
           [demo_user] "Bob@Example.com" "s3cr3t" "N3wPassword!" demo_random
           demo_user); vm_compute; reflexivity.
Defined.

(** X11: what a password-reset request reveals, for an email that is an
    ASCII string.  When the reset secret resolves and the server is not in
    development mode, the answer to an unknown email and to the email of an
    active account is the same 200 with the same message and no token in
    the body; the email of a deactivated account is answered 403
    ACCOUNT_DEACTIVATED. *)
Theorem forgotPassword_answers (env : gmap string string) (now : Z)
    (table : list User.t) (email s : string) :
  Spec.secret env Spec.reset = Some s ->
  getenv env "NODE_ENV" <> Str "development" ->
  ascii_only email = true ->
  (forgot_response (forgotPassword env now table email),
   forgot_debug (forgotPassword env now table email))
  = match findOne_by_email table (toLowerCase email) with
    | Some user =>
        if User.isActive user then
          (accept "If an account exists with this email, you will receive a password reset link.",
           None)
        else (reject 403 "Account is deactivated" "ACCOUNT_DEACTIVATED", None)
    | None =>
        (accept "If an account exists with this email, you will receive a password reset link.",
         None)
    end.
Proof.
  intros Hs Hdev _.
  destruct (findOne_by_email table (toLowerCase email)) as [user |] eqn:Hf.
  - destruct (User.isActive user) eqn:Ha.
    + rewrite (forgotPassword_found env now table email s user Hs Hf Ha).
      simpl. rewrite (bool_decide_eq_false_2 _ Hdev). reflexivity.
    + unfold forgotPassword. rewrite Hf, Ha. reflexivity.
  - unfold forgotPassword. rewrite Hf. reflexivity.
Qed.

(** X11 (witness): an unknown email at the example table. *)
Lemma forgotPassword_answers_witness :
  (forgot_response (forgotPassword demo_env 5000 [demo_user] "eve@example.com"),
   forgot_debug (forgotPassword demo_env 5000 [demo_user] "eve@example.com"))
  = (accept "If an account exists with this email, you will receive a password reset link.",
     None).
Proof.
  rewrite (forgotPassword_answers demo_env 5000 [demo_user]
             "eve@example.com" "s3cr3t").
  - reflexivity.
  - vm_compute. reflexivity.
  - vm_compute. discriminate.
  - reflexivity.
Defined.

(** ** Optional authentication and token refresh *)

(** X12: [optionalAuth] lets every request through, and hands on exactly
    the request [authenticate] would hand on when [authenticate] lets it
    through; when [authenticate] would answer 401 the request goes on as it
    came. *)
Theorem optionalAuth_agrees_with_authenticate (env : gmap string string)
    (now : Z) (req : request) :
  optionalAuth env now req
  = Next match authenticate env now req with
         | Next req' => req'
         | Respond _ => req
         end.
Proof.
  unfold optionalAuth, authenticate.
  destruct (has_bearer (authorization req)); [| reflexivity].
  simpl negb. cbv iota.
  destruct (verifyToken env now _ TOKEN_TYPES.ACCESS) as [decoded | err].
  - simpl bind.
    destruct (bool_decide (tokenType decoded = Some TOKEN_TYPES.ACCESS));
      reflexivity.
  - simpl bind. cbv iota zeta.
    destruct (String.eqb (error_name err) "TokenExpiredError");
      [reflexivity |].
    destruct (String.eqb (error_name err) "JsonWebTokenError"); reflexivity.
Qed.

Lemma refreshToken_handler_fails (env : gmap string string) (now : Z)
    (table : list User.t) (req : request) :
  success (refreshToken_handler env now table req) = false
  /\ (status (refreshToken_handler env now table req) = 400
      \/ status (refreshToken_handler env now table req) = 401).
Proof.
  unfold refreshToken_handler.
  destruct (negb (truthy (of_option (body_refreshToken req))));
    [simpl; auto |].
  destruct (verifyToken env now _ TOKEN_TYPES.REFRESH) as [decoded | err].
  - destruct (findByPk table (userId decoded)) as [user |]; [| simpl; auto].
    destruct (negb (User.isActive user)); simpl; auto.
  - cbv iota zeta.
    destruct (String.eqb (thrown_name (Thrown err)) "TokenExpiredError");
      simpl; auto.
Qed.

(** X13: the refresh route never issues a token.  The handler calls
    [generateToken], which its module does not import, so a request that
    passes every check ends in the handler's [catch]: whatever the request,
    the table and the configuration, the answer has [success: false] and
    status 400 or 401. *)
Theorem refresh_route_never_succeeds (env : gmap string string)
    (now later : Z) (table : list User.t) (req : request) :
  success (refresh_route env now later table req) = false
  /\ (status (refresh_route env now later table req) = 400
      \/ status (refresh_route env now later table req) = 401).
Proof.
  unfold refresh_route.
  destruct (verifyRefreshToken env now req) as [res | req'] eqn:Hv;
    [| apply refreshToken_handler_fails].
  unfold verifyRefreshToken in Hv.
  destruct (negb (truthy (of_option (body_refreshToken req))));
    [injection Hv as <-; simpl; auto |].
  destruct (verifyToken env now _ TOKEN_TYPES.REFRESH) as [decoded | err].
  - simpl in Hv.
    destruct (bool_decide (tokenType decoded = Some TOKEN_TYPES.REFRESH));
      simpl in Hv; [discriminate |].
    injection Hv as <-. simpl. auto.
  - simpl in Hv.
    destruct (String.eqb (error_name err) "TokenExpiredError");
      injection Hv as <-; simpl; auto.
Qed.

(** ** Login *)

(** The account [login] looks up: an active row with the email (lower-cased
    and trimmed) or, when no email is given, the username of the request. *)
Lemma login_lookup (table : list User.t) (email username : option string)
    (row : User.t) :
  (if truthy (of_option email) then
     findByEmailForAuth table (default EmptyString email)
   else if truthy (of_option username) then
     findByUsernameForAuth table (default EmptyString username)
   else None) = Some row ->
  In row table /\ User.isActive row = true
  /\ (if truthy (of_option email) then
        User.email row = trim (toLowerCase (default EmptyString email))
      else User.username row = default EmptyString username).
Proof.
  destruct (truthy (of_option email)).
  - unfold findByEmailForAuth. intros H. apply find_some in H.
    destruct H as [Hin H]. apply andb_true_iff in H. destruct H as [He Ha].
    apply String.eqb_eq in He. apply eqb_prop in Ha. auto.
  - destruct (truthy (of_option username)); [| discriminate].
    unfold findByUsernameForAuth. intros H. apply find_some in H.
    destruct H as [Hin H]. apply andb_true_iff in H. destruct H as [He Ha].
    apply String.eqb_eq in He. apply eqb_prop in Ha. auto.
Qed.

(** X14: a login succeeds only with the password of an active account.
    When [login] answers 200, the table holds an active row that matches
    the email (lower-cased and trimmed) or else the username of the request,
    [bcrypt.compare] accepted the password against that row's hash, the
    profile sent is that row without its password, and the access token and
    the [httpOnly] refresh cookie are the pair [generateAuthTokens] made for
    it.  Every other answer is a 401 or a 500: the 403 for a deactivated
    account is never sent, because both finders select active rows only. *)
Theorem login_sound (bcrypt_compare : string -> string -> bool)
    (updateLastLogin : User.t -> result unit) (env : gmap string string)
    (now_access now_refresh : Z) (table : list User.t)
    (email username : option string) (password : string) :
  match login bcrypt_compare updateLastLogin env now_access now_refresh table
          email username password with
  | LoggedIn profile token expiresIn cookie =>
      exists row hash tokens,
        In row table /\ User.isActive row = true
        /\ (if truthy (of_option email) then
              User.email row = trim (toLowerCase (default EmptyString email))
            else User.username row = default EmptyString username)
        /\ User.password row = Some hash
        /\ bcrypt_compare password hash = true
        /\ generateAuthTokens env now_access now_refresh row = Ok tokens
        /\ profile = with_password row None
        /\ token = accessToken tokens
        /\ cookie_value cookie = refreshToken tokens
        /\ httpOnly cookie = true
  | LoginRejected res _ => status res = 401 \/ status res = 500
  end.
Proof.
  unfold login.
  destruct (if truthy (of_option email) then _ else _) as [row |] eqn:Hf;
    [| simpl; auto].
  apply login_lookup in Hf. destruct Hf as (Hin & Ha & Hm).
  rewrite Ha. simpl negb. cbv iota. unfold comparePassword.
  destruct (User.password row) as [hash |] eqn:Hp; [| simpl; auto].
  simpl bind.
  destruct (bcrypt_compare password hash) eqn:Hc; [| simpl; auto].
  simpl negb. cbv iota.
  destruct (generateAuthTokens env now_access now_refresh row)
    as [tokens |] eqn:Ht; [| simpl; auto].
  simpl bind. destruct (updateLastLogin row); [| simpl; auto].
  simpl. exists row, hash, tokens. rewrite Hp. auto 12.
Qed.

(** X15: unknown and deactivated accounts look the same to [login].  When
    no active row matches the email (an ASCII string, lower-cased and
    trimmed) or else the username of the request, the answer is the 401
    INVALID_CREDENTIALS that a wrong password gets, whether a deactivated
    row matches or none. *)
Theorem login_unknown_or_deactivated
    (bcrypt_compare : string -> string -> bool)
    (updateLastLogin : User.t -> result unit) (env : gmap string string)
    (now_access now_refresh : Z) (table : list User.t)
    (email username : option string) (password : string) :
  ascii_only (default EmptyString email) = true ->
  (forall row, In row table -> User.isActive row = true ->
     if truthy (of_option email) then
       User.email row <> trim (toLowerCase (default EmptyString email))
     else User.username row <> default EmptyString username) ->
  login bcrypt_compare updateLastLogin env now_access now_refresh table
    email username password
  = LoginRejected (reject 401 "Invalid credentials" "INVALID_CREDENTIALS")
      None.
Proof.
  intros _ H. unfold login.
  destruct (if truthy (of_option email) then _ else _) as [row |] eqn:Hf;
    [| reflexivity].
  apply login_lookup in Hf. destruct Hf as (Hin & Ha & Hm).
  specialize (H row Hin Ha).
  destruct (truthy (of_option email)); contradiction.
Qed.

(** X15 (witness): the example user, deactivated, logs in with their
    email. *)
Lemma login_unknown_or_deactivated_witness :
  login (fun _ _ => true) (fun _ => Ok tt) demo_env 5000 5001
    [{| User.id := 7; User.username := "bob";
        User.email := "bob@example.com";
        User.password := Some "$2a$10$oldsaltoldsaltoldsalt01digest";
        User.displayName := Some "Bob"; User.role := "user";
        User.isActive := false; User.emailVerified := false |}]
    (Some "bob@example.com") None "hunter22"
  = LoginRejected (reject 401 "Invalid credentials" "INVALID_CREDENTIALS")
      None.
Proof.
  apply (login_unknown_or_deactivated (fun _ _ => true) (fun _ => Ok tt)
           demo_env 5000 5001).
  - reflexivity.
  - intros row [<- | []] Ha. simpl in Ha. discriminate Ha.
Defined.

(** X16: no login goes through.  The controller calls
    [user.updateLastLogin()], which the model does not define, after the
    password check and the issuing of the tokens: for an active row found
    for the email (a non-empty ASCII string) and a password that
    [bcrypt.compare] accepts against its hash, [login] answers 500
    LOGIN_ERROR, and in development mode the body carries the message of
    what was thrown, the missing-secret error if the tokens could not be
    issued and the type error of the call otherwise. *)
Theorem login_fails_after_password_check
    (bcrypt_compare : string -> string -> bool) (env : gmap string string)
    (now_access now_refresh : Z) (table : list User.t)
    (e password hash : string) (row : User.t) :
  e <> EmptyString ->
  ascii_only e = true ->
  findByEmailForAuth table e = Some row ->
  User.password row = Some hash ->
  bcrypt_compare password hash = true ->
  login bcrypt_compare updateLastLogin env now_access now_refresh table
    (Some e) None password
  = LoginRejected (reject 500 "Login failed" "LOGIN_ERROR")
      (if bool_decide (getenv env "NODE_ENV" = Str "development") then
         Some match generateAuthTokens env now_access now_refresh row with
              | Ok _ => "user.updateLastLogin is not a function"
              | Throw error => error_message error
              end
       else None).
Proof.
  intros He _ Hf Hp Hc. unfold login.
  assert (Ht : truthy (of_option (Some e)) = true)
    by (destruct e; [contradiction | reflexivity]).
  rewrite Ht. change (default EmptyString (Some e)) with e. rewrite Hf.
  assert (Ha : User.isActive row = true).
  { pose proof (login_lookup table (Some e) None row) as L.
    rewrite Ht in L. apply L. exact Hf. }
  rewrite Ha. simpl negb. cbv iota. unfold comparePassword.
  rewrite Hp. simpl bind. rewrite Hc. simpl negb. cbv iota.
  destruct (generateAuthTokens env now_access now_refresh row);
    reflexivity.
Qed.

(** X16 (witness): the example user logs in with their email in capitals
    and a password that the hash check accepts. *)
Lemma login_fails_after_password_check_witness :
  login (fun _ _ => true) updateLastLogin demo_env 5000 5001 [demo_user]
    (Some " Bob@Example.COM ") None "hunter22"
  = LoginRejected (reject 500 "Login failed" "LOGIN_ERROR") None.
Proof.
  apply (login_fails_after_password_check (fun _ _ => true) demo_env 5000
           5001 [demo_user] " Bob@Example.COM " "hunter22"
           "$2a$10$oldsaltoldsaltoldsalt01digest" demo_user);
    try discriminate; vm_compute; reflexivity.
Defined.

(** ** Password change *)

(** X17: what [changePassword] does for a caller whose row exists.  A
    current password that [bcrypt.compare] rejects is answered 401 and the
    table is left alone; an accepted one with a new password of 8 to 100
    characters is answered 200 and puts the hash of the new password, not
    the new password, in the caller's row; a new password outside that
    length fails the model's validation inside [save] and is answered 500,
    the table left alone.  (The new password is taken to differ from the
    stored hash string, otherwise the assignment marks nothing changed.) *)
Theorem changePassword_spec (isEmail : string -> bool)
    (bcrypt_compare : string -> string -> bool) (table : list User.t)
    (id : option Z) (currentPassword newPassword random hash : string)
    (row : User.t) :
  findByPk table id = Some row ->
  User.password row = Some hash ->
  newPassword <> hash ->
  changePassword isEmail bcrypt_compare table id currentPassword newPassword
    random
  = if bcrypt_compare currentPassword hash then
      if len 8 100 newPassword then
        (accept "Password changed successfully",
         store_row table
           (with_password row
              (Some (bcrypt.genSalt 10 random
                     +:+ bcrypt.digest newPassword))))
      else
        (reject 500 "Failed to change password" "PASSWORD_CHANGE_ERROR",
         table)
    else
      (reject 401 "Current password is incorrect" "INCORRECT_PASSWORD",
       table).
Proof.
  intros Hf Hp Hne. unfold changePassword. rewrite Hf.
  unfold comparePassword. rewrite Hp. simpl bind.
  destruct (bcrypt_compare currentPassword hash); [| reflexivity].
  simpl negb. cbv iota zeta.
  rewrite save_set_password;
    [| reflexivity | simpl; rewrite Hp; congruence].
  destruct (len 8 100 newPassword); reflexivity.
Qed.

(** X17 (witness): the example user changes their password; the hash check
    is taken to succeed. *)
Lemma changePassword_spec_witness :
  changePassword (fun _ => true) (fun _ _ => true) [demo_user] (Some 7)
    "hunter22" "N3wPassword!" demo_random
  = (accept "Password changed successfully",
     store_row [demo_user]
       (with_password demo_user
          (Some (bcrypt.genSalt 10 demo_random
                 +:+ bcrypt.digest "N3wPassword!")))).
Proof.
  apply (changePassword_spec (fun _ => true) (fun _ _ => true) [demo_user]
           (Some 7) "hunter22" "N3wPassword!" demo_random
           "$2a$10$oldsaltoldsaltoldsalt01digest" demo_user).
  - reflexivity.
  - reflexivity.
  - discriminate.
Defined.

(** ** Rate limiting over a window *)

Lemma handle_in_window (o : rateLimit.Options) (now : Z)
    (store : gmap string (Z * Z)) (req : request) (hits resetTime : Z) :
  rateLimit.skip o = None ->
  store !! rateLimit.key_of o req = Some (hits, resetTime) ->
  now < resetTime ->
  rateLimit.handle o now store req
  = (if Z.ltb (rateLimit.max o) (hits + 1)
     then Respond (reject 429 (fst (rateLimit.message o))
                     (snd (rateLimit.message o)))
     else Next req,
     <[rateLimit.key_of o req := (hits + 1, resetTime)]> store).
Proof.
  intros Hskip Hkey Hnow.
  unfold rateLimit.handle, rateLimit.skipped, rateLimit.increment.
  rewrite Hskip, Hkey.
  destruct (Z.ltb_spec now resetTime); [| lia].
  destruct (Z.ltb (rateLimit.max o) (hits + 1)); reflexivity.
Qed.

Lemma handle_new_window (o : rateLimit.Options) (now : Z)
    (store : gmap string (Z * Z)) (req : request) :
  rateLimit.skip o = None ->
  match store !! rateLimit.key_of o req with
  | Some (_, resetTime) => resetTime <= now
  | None => True
  end ->
  rateLimit.handle o now store req
  = (if Z.ltb (rateLimit.max o) 1
     then Respond (reject 429 (fst (rateLimit.message o))
                     (snd (rateLimit.message o)))
     else Next req,
     <[rateLimit.key_of o req := (1, now + rateLimit.windowMs o)]> store).
Proof.
  intros Hskip Hkey.
  unfold rateLimit.handle, rateLimit.skipped, rateLimit.increment.
  rewrite Hskip.
  destruct (store !! rateLimit.key_of o req) as [[hits resetTime] |].
  - destruct (Z.ltb_spec now resetTime); [lia |].
    destruct (Z.ltb (rateLimit.max o) 1); reflexivity.
  - destruct (Z.ltb (rateLimit.max o) 1); reflexivity.
Qed.

Lemma served_counts_all (o : rateLimit.Options) (now : Z)
    (store : gmap string (Z * Z)) (req : request) (downstream : Z) :
  rateLimit.skip o = None ->
  rateLimit.skipSuccessfulRequests o = false ->
  served o now store req downstream
  = snd (rateLimit.handle o now store req).
Proof.
  intros Hskip Hflag. unfold served, rateLimit.skipped. rewrite Hskip.
  destruct (rateLimit.handle o now store req) as [out store'].
  unfold rateLimit.finish. rewrite Hflag. reflexivity.
Qed.

Lemma traffic_in_window (o : rateLimit.Options) (key : string)
    (resetTime : Z) (reqs : list (Z * request * Z)) :
  rateLimit.skip o = None ->
  rateLimit.skipSuccessfulRequests o = false ->
  Forall (fun r => rateLimit.key_of o (snd (fst r)) = key
                   /\ fst (fst r) < resetTime)
    reqs ->
  forall (store : gmap string (Z * Z)) (hits : Z),
    store !! key = Some (hits, resetTime) ->
    traffic o store reqs
    = imap (fun i r =>
              if Z.ltb (rateLimit.max o) (hits + Z.of_nat i + 1)
              then Respond (reject 429 (fst (rateLimit.message o))
                              (snd (rateLimit.message o)))
              else Next (snd (fst r)))
        reqs.
Proof.
  intros Hskip Hflag Hall.
  induction Hall as [| [[t req] d] rest [Hk Ht] _ IH]; intros store hits Hs;
    [reflexivity |].
  simpl in Hk, Ht. subst key.
  cbn [traffic imap].
  rewrite (served_counts_all o t store req d Hskip Hflag).
  rewrite (handle_in_window o t store req hits resetTime Hskip Hs Ht).
  rewrite Z.add_0_r. cbn [fst snd]. f_equal.
  rewrite (IH _ (hits + 1)) by apply lookup_insert_eq.
  apply imap_ext. intros i r _. cbn [compose].
  replace (hits + 1 + Z.of_nat i + 1) with (hits + Z.of_nat (S i) + 1)
    by lia.
  reflexivity.
Qed.

(** X18: the budget of a window, for a limiter that counts every request
    (created without [skip] and without [skipSuccessfulRequests], as the
    general and the password-reset limiter are).  When a client's request
    opens a new window (no entry under its key, or one whose reset time has
    passed) and further requests with the same key arrive before the window
    ends, then, whatever the routes answer, the request number [i] of the
    window, counted from 0, is let through if [i < max] and answered 429
    with the limiter's message otherwise. *)
Theorem limiter_window_budget (o : rateLimit.Options)
    (store : gmap string (Z * Z)) (now : Z) (req : request) (downstream : Z)
    (reqs : list (Z * request * Z)) :
  rateLimit.skip o = None ->
  rateLimit.skipSuccessfulRequests o = false ->
  match store !! rateLimit.key_of o req with
  | Some (_, resetTime) => resetTime <= now
  | None => True
  end ->
  Forall (fun r =>
            rateLimit.key_of o (snd (fst r)) = rateLimit.key_of o req
            /\ fst (fst r) < now + rateLimit.windowMs o)
    reqs ->
  traffic o store ((now, req, downstream) :: reqs)
  = imap (fun i r =>
            if Z.ltb (Z.of_nat i) (rateLimit.max o) then Next (snd (fst r))
            else Respond (reject 429 (fst (rateLimit.message o))
                            (snd (rateLimit.message o))))
      ((now, req, downstream) :: reqs).
Proof.
  intros Hskip Hflag Hkey Hall. cbn [traffic imap].
  rewrite (served_counts_all o now store req downstream Hskip Hflag).
  rewrite (handle_new_window o now store req Hskip Hkey). cbn [fst snd].
  f_equal.
  - destruct (Z.ltb_spec (rateLimit.max o) 1),
      (Z.ltb_spec (Z.of_nat 0) (rateLimit.max o)); try reflexivity; lia.
  - rewrite (traffic_in_window o (rateLimit.key_of o req)
               (now + rateLimit.windowMs o) reqs Hskip Hflag Hall _ 1)
      by apply lookup_insert_eq.
    apply imap_ext. intros i r _. cbn [compose].
    destruct (Z.ltb_spec (rateLimit.max o) (1 + Z.of_nat i + 1)),
      (Z.ltb_spec (Z.of_nat (S i)) (rateLimit.max o));
      try reflexivity; lia.
Qed.

(** X18 (witness): four password-reset requests from one address within a
    minute, the first three answered 200 by the route: three pass, the
    fourth is answered 429. *)
Lemma limiter_window_budget_witness :
  traffic passwordResetLimiter ∅
    [(1000, demo_request, 200); (2000, demo_request, 200);
     (3000, demo_request, 200); (60000, demo_request, 200)]
  = [Next demo_request; Next demo_request; Next demo_request;
     Respond (reject 429
                "Too many password reset attempts, please try again later."
                "PASSWORD_RESET_LIMIT_EXCEEDED")].
Proof.
  apply (limiter_window_budget passwordResetLimiter ∅ 1000 demo_request 200
           [(2000, demo_request, 200); (3000, demo_request, 200);
            (60000, demo_request, 200)]).
  - reflexivity.
  - reflexivity.
  - vm_compute. exact I.
  - repeat constructor.
Defined.

(** X19: the login limiter counts failed attempts only.  Inside a running
    window, a request that the limiter lets through and that the route
    answers with a status below 400 leaves the caller's count where it was;
    one answered 400 or above, and one the limiter itself answers with 429,
    raise it by one. *)
Theorem authLimiter_counts_failures (now : Z) (store : gmap string (Z * Z))
    (req : request) (downstream hits resetTime : Z) :
  store !! ip req = Some (hits, resetTime) ->
  now < resetTime ->
  0 <= hits ->
  served authLimiter now store req downstream !! ip req
  = Some (if Z.ltb hits 5 && Z.ltb downstream 400 then hits else hits + 1,
          resetTime).
Proof.
  intros Hs Hnow Hhits. unfold served.
  change (rateLimit.skipped authLimiter req) with false. cbv iota.
  rewrite (handle_in_window authLimiter now store req hits resetTime
             eq_refl Hs Hnow).
  change (rateLimit.key_of authLimiter req) with (ip req).
  change (rateLimit.max authLimiter) with 5.
  unfold rateLimit.finish.
  change (rateLimit.skipSuccessfulRequests authLimiter) with true.
  change (rateLimit.key_of authLimiter req) with (ip req).
  rewrite lookup_insert_eq.
  destruct (Z.ltb_spec 5 (hits + 1)), (Z.ltb_spec hits 5); try lia.
  - simpl. rewrite lookup_insert_eq. reflexivity.
  - cbn [andb]. destruct (Z.ltb downstream 400).
    + rewrite lookup_insert_eq. f_equal. f_equal. lia.
    + rewrite lookup_insert_eq. reflexivity.
Qed.

(** X19 (witness): a successful login after two failed ones leaves the
    count at two. *)
Lemma authLimiter_counts_failures_witness :
  served authLimiter 5000 {[ "203.0.113.9" := (2, 900000) ]} demo_request 200
    !! ip demo_request
  = Some (2, 900000).
Proof.
  apply (authLimiter_counts_failures 5000 {[ "203.0.113.9" := (2, 900000) ]}
           demo_request 200 2 900000).
  - vm_compute. reflexivity.
  - reflexivity.
  - discriminate.
Defined.

(** X20: the per-user limiter counts by account, not by address.  Two
    authenticated requests fall under the same counter exactly when they
    carry the same user id, whatever their addresses. *)
Theorem userRateLimiter_counts_per_user (maxRequests windowMs : Z)
    (req1 req2 : request) (u1 u2 : Identity.t) (n m : Z) :
  user req1 = Some u1 ->
  user req2 = Some u2 ->
  Identity.id u1 = Some n ->
  Identity.id u2 = Some m ->
  rateLimit.key_of (userRateLimiter maxRequests windowMs) req1
  = rateLimit.key_of (userRateLimiter maxRequests windowMs) req2
  <-> n = m.
Proof.
  intros H1 H2 Hn Hm.
  unfold rateLimit.key_of, userRateLimiter, user_key.
  cbn [rateLimit.keyGenerator]. rewrite H1, H2, Hn, Hm.
  split.
  - intros H.
    change ("user:" +:+ pretty n)
      with (String "u" (String "s" (String "e" (String "r"
              (String ":" (pretty n)))))) in H.
    change ("user:" +:+ pretty m)
      with (String "u" (String "s" (String "e" (String "r"
              (String ":" (pretty m)))))) in H.
    injection H as H. apply (inj pretty) in H. exact H.
  - intros ->. reflexivity.
Qed.

(** X20 (witness): user 7 from two addresses. *)
Lemma userRateLimiter_counts_per_user_witness :
  rateLimit.key_of (userRateLimiter 50 60000)
    (set_user demo_request
       {| Identity.id := Some 7; Identity.email := None;
          Identity.role := None |})
  = rateLimit.key_of (userRateLimiter 50 60000)
      (set_user
         {| authorization := None; body_refreshToken := None;
            path := "/api/posts"; ip := "198.51.100.4"; user := None;
            refreshTokenData := None |}
         {| Identity.id := Some 7; Identity.email := None;
            Identity.role := None |}).
Proof.
  apply (userRateLimiter_counts_per_user 50 60000 _ _
           {| Identity.id := Some 7; Identity.email := None;
              Identity.role := None |}
           {| Identity.id := Some 7; Identity.email := None;
              Identity.role := None |} 7 7); reflexivity.
Defined.
